(** * SDL_mixer, Timidity MIDI backend: [src/codecs/music_timidity.c]

    A shallow embedding of the Timidity music codec of SDL_mixer and the
    properties of its session life cycle, its playback state and its
    pull protocol ([TIMIDITY_GetSome]).

    The codec is glue code: every function of the file is a short sequence
    of calls into SDL (allocation, audio streams, I/O) and into the Timidity
    synthesizer, with a little bookkeeping on the [TIMIDITY_Music] struct in
    between.  The embedding keeps that shape:

    - the struct is a record, nullable pointers are [option]s of handles;
    - C [int]s are [Z]; the one place where arithmetic could leave the
      range of its type writes the wrap-around out;
    - the outside world (SDL and Timidity) is a state [W] together with one
      transition function per external entry point ([Externals]); nothing
      is assumed about them;
    - each function of the codec is a computation in a state monad over
      the world and a log of the external calls made so far, in call
      order.  Properties such as "the decoder is not invoked" or
      "everything allocated is released" are statements about that log. *)

From Stdlib Require Import ZArith List Bool String Lia Floats.
Import ListNotations.

Open Scope Z_scope.

(** ** C scalar types *)

Module CInt.

Definition Sint32_min : Z := - 2 ^ 31.
Definition Sint32_max : Z := 2 ^ 31 - 1.

Definition in_Sint32 (z : Z) : Prop := Sint32_min <= z <= Sint32_max.

(** Conversion of an integer value to [Sint32] / [int] (two's complement). *)
Definition to_Sint32 (z : Z) : Z := (z + 2 ^ 31) mod 2 ^ 32 - 2 ^ 31.

(** Conversion of an integer value to [Uint32] / [unsigned int]. *)
Definition to_Uint32 (z : Z) : Z := z mod 2 ^ 32.

(** Truncation of a [double] toward zero, the integer part that the cast
    [(Uint32)d] starts from.  Not-a-number and the infinities have no
    integer part; the cast is undefined on them in C and the model maps
    them to [0]. *)
Definition double_trunc (d : float) : Z :=
  match Prim2SF d with
  | S754_finite s m e =>
      let mag := match e with
                 | Z0 => Zpos m
                 | Zpos p => Zpos m * 2 ^ Zpos p
                 | Zneg p => Zpos m / 2 ^ Zpos p
                 end in
      if s then - mag else mag
  | _ => 0
  end.

(** [(Uint32)d].  In range the value is the truncation; out of range C
    leaves the cast undefined and the model reduces modulo [2^32]. *)
Definition double_to_Uint32 (d : float) : Z := to_Uint32 (double_trunc d).

End CInt.

(** ** Handles and plain data *)

(** Opaque objects owned by SDL or Timidity are known to the codec by
    their address only.  A handle is that (non-null) address; a C pointer
    that may be [NULL] is an [option] of a handle. *)
Definition MidiSong := Z.
Definition SDL_AudioStream := Z.
Definition SDL_IOStream := Z.
Definition Ptr := Z.

(** [SDL_AudioSpec]: sample format, channel count and sample rate. *)
Record SDL_AudioSpec := mkSpec {
  format : Z;
  channels : Z;
  freq : Z
}.

Definition set_channels (s : SDL_AudioSpec) (c : Z) : SDL_AudioSpec :=
  mkSpec (format s) c (freq s).

(** SDL's macro [SDL_AUDIO_BITSIZE(x)] is [(x) & SDL_AUDIO_MASK_BITSIZE],
    with [SDL_AUDIO_MASK_BITSIZE] the constant [0xFFu]. *)
Definition SDL_AUDIO_BITSIZE (x : Z) : Z := Z.land x 255.

(** The session: [TIMIDITY_Music]. *)
Record TIMIDITY_Music := mkMusic {
  play_count : Z;
  song : option MidiSong;
  stream : option SDL_AudioStream;
  buffer : option Ptr;
  buffer_size : Z;
  volume : Z
}.

(** What [SDL_calloc] hands out: every field zero, every pointer [NULL]. *)
Definition zeroed_music : TIMIDITY_Music :=
  mkMusic 0 None None None 0 0.

Definition set_play_count (m : TIMIDITY_Music) (n : Z) : TIMIDITY_Music :=
  mkMusic n (song m) (stream m) (buffer m) (buffer_size m) (volume m).
Definition set_song (m : TIMIDITY_Music) (s : option MidiSong) : TIMIDITY_Music :=
  mkMusic (play_count m) s (stream m) (buffer m) (buffer_size m) (volume m).
Definition set_stream (m : TIMIDITY_Music) (s : option SDL_AudioStream) : TIMIDITY_Music :=
  mkMusic (play_count m) (song m) s (buffer m) (buffer_size m) (volume m).
Definition set_buffer (m : TIMIDITY_Music) (b : option Ptr) : TIMIDITY_Music :=
  mkMusic (play_count m) (song m) (stream m) b (buffer_size m) (volume m).
Definition set_buffer_size (m : TIMIDITY_Music) (n : Z) : TIMIDITY_Music :=
  mkMusic (play_count m) (song m) (stream m) (buffer m) n (volume m).
Definition set_volume (m : TIMIDITY_Music) (v : Z) : TIMIDITY_Music :=
  mkMusic (play_count m) (song m) (stream m) (buffer m) (buffer_size m) v.

(** ** The outside world *)

(** One constructor per external entry point the codec calls, carrying the
    arguments passed and, where there is one, the result received. *)
Inductive Event :=
| Ev_SDL_getenv (name : string) (r : option string)
| Ev_Mix_GetTimidityCfg (r : option string)
| Ev_Timidity_Init (cfg : option string) (rc : Z)
| Ev_Timidity_Exit
| Ev_SDL_calloc (nmemb size : Z) (r : option Ptr)
| Ev_Timidity_LoadSong (src : SDL_IOStream) (spec : SDL_AudioSpec) (r : option MidiSong)
| Ev_SDL_CreateAudioStream (src_spec dst_spec : SDL_AudioSpec) (r : option SDL_AudioStream)
| Ev_SDL_malloc (size : Z) (r : option Ptr)
| Ev_SDL_CloseIO (src : SDL_IOStream)
| Ev_Timidity_SetVolume (s : option MidiSong) (v : Z)
| Ev_Timidity_Start (s : option MidiSong)
| Ev_Timidity_Seek (s : option MidiSong) (ms : Z)
| Ev_Timidity_IsActive (s : option MidiSong) (r : bool)
| Ev_SDL_GetAudioStreamData (st : SDL_AudioStream) (buf : Ptr) (len : Z) (r : Z)
| Ev_Timidity_PlaySome (s : option MidiSong) (buf : option Ptr) (len : Z) (r : Z)
| Ev_SDL_PutAudioStreamData (st : SDL_AudioStream) (buf : option Ptr) (len : Z) (r : bool)
| Ev_Timidity_Stop (s : option MidiSong)
| Ev_Timidity_FreeSong (s : MidiSong)
| Ev_SDL_DestroyAudioStream (st : SDL_AudioStream)
| Ev_SDL_free (p : Ptr).

(** The behaviour of SDL and Timidity: a transition of the world per entry
    point.  The codec never looks into sample buffers itself, it only hands
    their addresses on, so their contents are part of the world.  So is
    the configuration path an application may have registered with the
    mixer, which the codec reads through [Mix_GetTimidityCfg]. *)
Class Externals (W : Type) := {
  x_SDL_getenv : string -> W -> option string;
  x_Mix_GetTimidityCfg : W -> option string;
  x_Timidity_Init : option string -> W -> Z * W;
  x_Timidity_Exit : W -> W;
  x_SDL_calloc : Z -> Z -> W -> option Ptr * W;
  x_Timidity_LoadSong : SDL_IOStream -> SDL_AudioSpec -> W -> option MidiSong * W;
  x_SDL_CreateAudioStream : SDL_AudioSpec -> SDL_AudioSpec -> W -> option SDL_AudioStream * W;
  x_SDL_malloc : Z -> W -> option Ptr * W;
  x_SDL_CloseIO : SDL_IOStream -> W -> W;
  x_Timidity_SetVolume : option MidiSong -> Z -> W -> W;
  x_Timidity_Start : option MidiSong -> W -> W;
  x_Timidity_Seek : option MidiSong -> Z -> W -> W;
  x_Timidity_IsActive : option MidiSong -> W -> bool;
  x_SDL_GetAudioStreamData : SDL_AudioStream -> Ptr -> Z -> W -> Z * W;
  x_Timidity_PlaySome : option MidiSong -> option Ptr -> Z -> W -> Z * W;
  x_SDL_PutAudioStreamData : SDL_AudioStream -> option Ptr -> Z -> W -> bool * W;
  x_Timidity_Stop : option MidiSong -> W -> W;
  x_Timidity_FreeSong : MidiSong -> W -> W;
  x_SDL_DestroyAudioStream : SDL_AudioStream -> W -> W;
  x_SDL_free : Ptr -> W -> W
}.

(** ** The monad of the codec: world and call log *)

Record State (W : Type) := mkState {
  world : W;
  trace : list Event
}.
Arguments mkState {W} _ _.
Arguments world {W} _.
Arguments trace {W} _.

Definition M (W A : Type) : Type := State W -> A * State W.

Definition ret {W A} (a : A) : M W A := fun s => (a, s).

Definition bind {W A B} (c : M W A) (k : A -> M W B) : M W B :=
  fun s => let (a, s') := c s in k a s'.

Notation "x <- c ;; k" := (bind c (fun x => k))
  (at level 61, c at next level, right associativity).
Notation "c ;;; k" := (bind c (fun _ => k))
  (at level 61, right associativity).

(** A call that returns a result: run the world, log arguments and result. *)
Definition call {W R} (f : W -> R * W) (ev : R -> Event) : M W R :=
  fun s => let (r, w') := f (world s) in
           (r, mkState w' (trace s ++ [ev r])).

(** A call that returns nothing. *)
Definition call_void {W} (f : W -> W) (ev : Event) : M W unit :=
  fun s => (tt, mkState (f (world s)) (trace s ++ [ev])).

(** A query that leaves the world as it is. *)
Definition call_pure {W R} (f : W -> R) (ev : R -> Event) : M W R :=
  fun s => let r := f (world s) in
           (r, mkState (world s) (trace s ++ [ev r])).

(** Running a computation on a world with an empty log. *)
Definition run {W A} (c : M W A) (w : W) : A * State W := c (mkState w []).
Definition result {W A} (c : M W A) (w : W) : A := fst (run c w).
Definition calls {W A} (c : M W A) (w : W) : list Event := trace (snd (run c w)).

(** ** Bookkeeping on call logs *)

(** What the codec owns at run time: memory blocks, the decoder's song and
    the audio stream. *)
Inductive Resource :=
| R_mem (p : Ptr)
| R_song (s : MidiSong)
| R_stream (st : SDL_AudioStream).

Definition Resource_eqb (a b : Resource) : bool :=
  match a, b with
  | R_mem p, R_mem q => p =? q
  | R_song s, R_song t => s =? t
  | R_stream s, R_stream t => s =? t
  | _, _ => false
  end.

(** The resource a call hands to the codec, if it succeeded. *)
Definition acquires (e : Event) : option Resource :=
  match e with
  | Ev_SDL_calloc _ _ (Some p) => Some (R_mem p)
  | Ev_SDL_malloc _ (Some p) => Some (R_mem p)
  | Ev_Timidity_LoadSong _ _ (Some s) => Some (R_song s)
  | Ev_SDL_CreateAudioStream _ _ (Some st) => Some (R_stream st)
  | _ => None
  end.

(** The resource a call gives back. *)
Definition releases (e : Event) : option Resource :=
  match e with
  | Ev_SDL_free p => Some (R_mem p)
  | Ev_Timidity_FreeSong s => Some (R_song s)
  | Ev_SDL_DestroyAudioStream st => Some (R_stream st)
  | _ => None
  end.

(** An allocation that reported failure. *)
Definition alloc_failed (e : Event) : bool :=
  match e with
  | Ev_SDL_calloc _ _ None => true
  | Ev_SDL_malloc _ None => true
  | Ev_Timidity_LoadSong _ _ None => true
  | Ev_SDL_CreateAudioStream _ _ None => true
  | _ => false
  end.

Fixpoint remove_first (r : Resource) (held : list Resource) : list Resource :=
  match held with
  | [] => []
  | h :: t => if Resource_eqb r h then t else h :: remove_first r t
  end.

(** Resources held after a log has run, starting from [held]: every
    successful allocation adds one, every release takes one away. *)
Fixpoint outstanding_from (held : list Resource) (tr : list Event) : list Resource :=
  match tr with
  | [] => held
  | e :: tr' =>
      let held1 := match acquires e with
                   | Some r => held ++ [r]
                   | None => held
                   end in
      let held2 := match releases e with
                   | Some r => remove_first r held1
                   | None => held1
                   end in
      outstanding_from held2 tr'
  end.

Definition outstanding (tr : list Event) : list Resource := outstanding_from [] tr.

Definition is_PlaySome (e : Event) : bool :=
  match e with Ev_Timidity_PlaySome _ _ _ _ => true | _ => false end.

Definition is_CloseIO (e : Event) : bool :=
  match e with Ev_SDL_CloseIO _ => true | _ => false end.

Definition is_Init (e : Event) : bool :=
  match e with Ev_Timidity_Init _ _ => true | _ => false end.

(** The decoder was asked for samples somewhere in the log. *)
Definition decoder_invoked (tr : list Event) : bool := existsb is_PlaySome tr.

(** The input stream was closed somewhere in the log. *)
Definition io_closed (tr : list Event) : bool := existsb is_CloseIO tr.

(** The decoder was asked for [len] bytes somewhere in the log and gave
    fewer. *)
Definition short_production (tr : list Event) : bool :=
  existsb (fun e => match e with
                    | Ev_Timidity_PlaySome _ _ len r => r <? len
                    | _ => false
                    end) tr.

(** A push into the adapter reported failure somewhere in the log. *)
Definition push_failed (tr : list Event) : bool :=
  existsb (fun e => match e with
                    | Ev_SDL_PutAudioStreamData _ _ _ ok => negb ok
                    | _ => false
                    end) tr.

(** The log asks for memory, a song or a stream somewhere. *)
Definition allocates (tr : list Event) : bool :=
  existsb (fun e => match e with
                    | Ev_SDL_calloc _ _ _ | Ev_SDL_malloc _ _
                    | Ev_Timidity_LoadSong _ _ _
                    | Ev_SDL_CreateAudioStream _ _ _ => true
                    | _ => false
                    end) tr.

(** The song was (re)started somewhere in the log. *)
Definition restarted (tr : list Event) : bool :=
  existsb (fun e => match e with Ev_Timidity_Start _ => true | _ => false end) tr.


(** The configurations [Timidity_Init] was called with, in call order, and
    the status each call returned. *)
Definition init_cfgs (tr : list Event) : list (option string) :=
  flat_map (fun e => match e with Ev_Timidity_Init cfg _ => [cfg] | _ => [] end) tr.

Definition init_rcs (tr : list Event) : list Z :=
  flat_map (fun e => match e with Ev_Timidity_Init _ rc => [rc] | _ => [] end) tr.

(** Every status but the last one is a failure. *)
Fixpoint failed_until_last (rcs : list Z) : bool :=
  match rcs with
  | [] => true
  | rc :: rest =>
      match rest with
      | [] => true
      | _ :: _ => (rc <? 0) && failed_until_last rest
      end
  end.


(** What the session holds. *)
Definition opt_list {A B} (f : A -> B) (o : option A) : list B :=
  match o with Some a => [f a] | None => [] end.

Definition owned_by (context : Ptr) (music : TIMIDITY_Music) : list Resource :=
  [R_mem context] ++ opt_list R_song (song music)
    ++ opt_list R_stream (stream music) ++ opt_list R_mem (buffer music).

(** ** Build-time and mixer-wide constants *)

(** [SDL_PLATFORM_WIN32] selects the default configuration paths; the size
    of the session struct and the width of [size_t] come with the target. *)
Record Platform := mkPlatform {
  SDL_PLATFORM_WIN32 : bool;
  sizeof_TIMIDITY_Music : Z;
  size_t_bits : Z
}.

Definition to_size_t (pf : Platform) (z : Z) : Z := z mod 2 ^ size_t_bits pf.

(** The configuration file macros of the source, each defined on one kind
    of platform only. *)
Definition TIMIDITY_CFG (pf : Platform) : option string :=
  if SDL_PLATFORM_WIN32 pf then Some "C:\TIMIDITY\TIMIDITY.CFG"%string else None.
Definition TIMIDITY_CFG_ETC (pf : Platform) : option string :=
  if SDL_PLATFORM_WIN32 pf then None else Some "/etc/timidity.cfg"%string.
Definition TIMIDITY_CFG_FREEPATS (pf : Platform) : option string :=
  if SDL_PLATFORM_WIN32 pf then None else Some "/etc/timidity/freepats.cfg"%string.

(** ** The codec *)

Section Codec.

Context {W : Type} {X : Externals W}.

(** The platform the file is compiled for. *)
Variable pf : Platform.

(** [music_spec], the output format the mixer was opened with, and
    [MIX_MAX_VOLUME] are declared by the mixer core, outside this file. *)
Variable music_spec : SDL_AudioSpec.
Variable MIX_MAX_VOLUME : Z.

(** *** External calls, logged *)

Definition SDL_getenv (name : string) : M W (option string) :=
  call_pure (x_SDL_getenv name) (Ev_SDL_getenv name).
Definition Mix_GetTimidityCfg : M W (option string) :=
  call_pure x_Mix_GetTimidityCfg Ev_Mix_GetTimidityCfg.
Definition Timidity_Init (cfg : option string) : M W Z :=
  call (x_Timidity_Init cfg) (Ev_Timidity_Init cfg).
Definition Timidity_Exit : M W unit :=
  call_void x_Timidity_Exit Ev_Timidity_Exit.
Definition SDL_calloc (nmemb size : Z) : M W (option Ptr) :=
  call (x_SDL_calloc nmemb size) (Ev_SDL_calloc nmemb size).
Definition Timidity_LoadSong (src : SDL_IOStream) (spec : SDL_AudioSpec)
  : M W (option MidiSong) :=
  call (x_Timidity_LoadSong src spec) (Ev_Timidity_LoadSong src spec).
Definition SDL_CreateAudioStream (src_spec dst_spec : SDL_AudioSpec)
  : M W (option SDL_AudioStream) :=
  call (x_SDL_CreateAudioStream src_spec dst_spec)
       (Ev_SDL_CreateAudioStream src_spec dst_spec).
Definition SDL_malloc (size : Z) : M W (option Ptr) :=
  call (x_SDL_malloc size) (Ev_SDL_malloc size).
Definition SDL_CloseIO (src : SDL_IOStream) : M W unit :=
  call_void (x_SDL_CloseIO src) (Ev_SDL_CloseIO src).
Definition Timidity_SetVolume (s : option MidiSong) (v : Z) : M W unit :=
  call_void (x_Timidity_SetVolume s v) (Ev_Timidity_SetVolume s v).
Definition Timidity_Start (s : option MidiSong) : M W unit :=
  call_void (x_Timidity_Start s) (Ev_Timidity_Start s).
Definition Timidity_Seek (s : option MidiSong) (ms : Z) : M W unit :=
  call_void (x_Timidity_Seek s ms) (Ev_Timidity_Seek s ms).
Definition Timidity_IsActive (s : option MidiSong) : M W bool :=
  call_pure (x_Timidity_IsActive s) (Ev_Timidity_IsActive s).
Definition SDL_GetAudioStreamData (st : SDL_AudioStream) (buf : Ptr) (len : Z)
  : M W Z :=
  call (x_SDL_GetAudioStreamData st buf len) (Ev_SDL_GetAudioStreamData st buf len).
Definition Timidity_PlaySome (s : option MidiSong) (buf : option Ptr) (len : Z)
  : M W Z :=
  call (x_Timidity_PlaySome s buf len) (Ev_Timidity_PlaySome s buf len).
Definition SDL_PutAudioStreamData (st : SDL_AudioStream) (buf : option Ptr) (len : Z)
  : M W bool :=
  call (x_SDL_PutAudioStreamData st buf len) (Ev_SDL_PutAudioStreamData st buf len).
Definition Timidity_Stop (s : option MidiSong) : M W unit :=
  call_void (x_Timidity_Stop s) (Ev_Timidity_Stop s).
Definition Timidity_FreeSong (s : MidiSong) : M W unit :=
  call_void (x_Timidity_FreeSong s) (Ev_Timidity_FreeSong s).
Definition SDL_DestroyAudioStream (st : SDL_AudioStream) : M W unit :=
  call_void (x_SDL_DestroyAudioStream st) (Ev_SDL_DestroyAudioStream st).
Definition SDL_free (p : Ptr) : M W unit :=
  call_void (x_SDL_free p) (Ev_SDL_free p).

(** [if (p) f(p);] *)
Definition when_present {A} (o : option A) (f : A -> M W unit) : M W unit :=
  match o with Some a => f a | None => ret tt end.

(** *** [TIMIDITY_Open], [TIMIDITY_Close] *)

(** One default path of the source:
    [#if defined(MACRO)  if (rc < 0) rc = Timidity_Init(MACRO);  #endif] *)
Definition init_if_defined (macro : option string) (rc : Z) : M W Z :=
  match macro with
  | Some path => if rc <? 0 then Timidity_Init (Some path) else ret rc
  | None => ret rc
  end.

Definition TIMIDITY_Open (spec : SDL_AudioSpec) : M W Z :=
  let rc := -1 in
  cfg <- SDL_getenv "TIMIDITY_CFG" ;;
  cfg <- match cfg with
         | None => Mix_GetTimidityCfg
         | Some _ => ret cfg
         end ;;
  match cfg with
  | Some _ => Timidity_Init cfg
  | None =>
      rc <- init_if_defined (TIMIDITY_CFG pf) rc ;;
      rc <- init_if_defined (TIMIDITY_CFG_ETC pf) rc ;;
      rc <- init_if_defined (TIMIDITY_CFG_FREEPATS pf) rc ;;
      rc <- (if rc <? 0 then Timidity_Init None else ret rc) ;;
      ret rc
  end.

Definition TIMIDITY_Close : M W unit := Timidity_Exit.

(** *** [TIMIDITY_Delete] *)

Definition TIMIDITY_Delete (context : Ptr) (music : TIMIDITY_Music) : M W unit :=
  when_present (song music) Timidity_FreeSong ;;;
  when_present (stream music) SDL_DestroyAudioStream ;;;
  when_present (buffer music) SDL_free ;;;
  SDL_free context.

(** *** [TIMIDITY_CreateFromIO] *)

(** The local [spec]: a copy of [music_spec], cut down to two channels
    when it has more. *)
Definition need_stream : bool := channels music_spec >? 2.
Definition local_spec : SDL_AudioSpec :=
  if need_stream then set_channels music_spec 2 else music_spec.

(** [4096 * (SDL_AUDIO_BITSIZE(spec.format) / 8) * spec.channels]: the
    macro yields an [unsigned int], so the product is taken in
    [unsigned int] and then stored in the [Sint32] field. *)
Definition scratch_size (spec : SDL_AudioSpec) : Z :=
  CInt.to_Sint32
    (CInt.to_Uint32
       (CInt.to_Uint32 (4096 * (SDL_AUDIO_BITSIZE (format spec) / 8))
        * CInt.to_Uint32 (channels spec))).

(** The session is returned as the address handed out by [SDL_calloc]
    together with the contents of the struct at that address. *)
Definition TIMIDITY_CreateFromIO (src : SDL_IOStream) (closeio : bool)
  : M W (option (Ptr * TIMIDITY_Music)) :=
  p <- SDL_calloc 1 (sizeof_TIMIDITY_Music pf) ;;
  match p with
  | None => ret None
  | Some context =>
      let music := set_volume zeroed_music MIX_MAX_VOLUME in
      let spec := local_spec in
      s <- Timidity_LoadSong src spec ;;
      let music := set_song music s in
      match s with
      | None => TIMIDITY_Delete context music ;;; ret None
      | Some _ =>
          built <- (if need_stream then
                      st <- SDL_CreateAudioStream spec music_spec ;;
                      let music := set_stream music st in
                      match st with
                      | None => TIMIDITY_Delete context music ;;; ret None
                      | Some _ =>
                          let music := set_buffer_size music (scratch_size spec) in
                          b <- SDL_malloc (to_size_t pf (buffer_size music)) ;;
                          let music := set_buffer music b in
                          match b with
                          | None => TIMIDITY_Delete context music ;;; ret None
                          | Some _ => ret (Some music)
                          end
                      end
                    else ret (Some music)) ;;
          match built with
          | None => ret None
          | Some music =>
              (if closeio then SDL_CloseIO src else ret tt) ;;;
              ret (Some (context, music))
          end
      end
  end.

(** *** Volume *)

Definition TIMIDITY_SetVolume (music : TIMIDITY_Music) (v : Z) : M W TIMIDITY_Music :=
  let music := set_volume music v in
  Timidity_SetVolume (song music) v ;;;
  ret music.

Definition TIMIDITY_GetVolume (music : TIMIDITY_Music) : Z := volume music.

(** *** [TIMIDITY_Seek], [TIMIDITY_Play], [TIMIDITY_IsPlaying], [TIMIDITY_Stop] *)

Definition TIMIDITY_Seek (music : TIMIDITY_Music) (position : float) : M W Z :=
  Timidity_Seek (song music) (CInt.double_to_Uint32 (position * 1000)%float) ;;;
  ret 0.

Definition TIMIDITY_Play (music : TIMIDITY_Music) (n : Z) : M W (Z * TIMIDITY_Music) :=
  let music := set_play_count music n in
  Timidity_Start (song music) ;;;
  rc <- TIMIDITY_Seek music 0%float ;;
  ret (rc, music).

Definition TIMIDITY_IsPlaying (music : TIMIDITY_Music) : M W bool :=
  Timidity_IsActive (song music).

Definition TIMIDITY_Stop (music : TIMIDITY_Music) : M W TIMIDITY_Music :=
  Timidity_Stop (song music) ;;;
  ret music.

(** *** [TIMIDITY_GetSome] *)

(** The result of a call: the byte count returned (negative on error),
    the session after the call and the caller's [*done] after the call. *)
Definition GetSome_result : Type := Z * TIMIDITY_Music * bool.

(** Lines 187-200: what follows a production of [amount] bytes where
    [expected] were asked for.  Yields whether the restart failed and the
    session afterwards. *)
Definition after_production (music : TIMIDITY_Music) (amount expected : Z)
  : M W (bool * TIMIDITY_Music) :=
  if amount <? expected then
    if play_count music =? 1 then
      ret (false, set_play_count music 0)
    else
      let n := if play_count music >? 0 then play_count music - 1 else -1 in
      r <- TIMIDITY_Play music n ;;
      ret (fst r <? 0, snd r)
  else ret (false, music).

(** Lines 170-207: the session has nothing buffered to hand out. *)
Definition GetSome_decode (music : TIMIDITY_Music) (data : Ptr) (bytes : Z)
           (done : bool) : M W GetSome_result :=
  if play_count music =? 0 then
    (* All done *)
    ret (0, music, true)
  else
    produced <- match stream music with
                | Some st =>
                    let expected := buffer_size music in
                    amount <- Timidity_PlaySome (song music) (buffer music)
                                                (buffer_size music) ;;
                    ok <- SDL_PutAudioStreamData st (buffer music) amount ;;
                    ret (if ok then Some (amount, expected) else None)
                | None =>
                    let expected := bytes in
                    amount <- Timidity_PlaySome (song music) (Some data) bytes ;;
                    ret (Some (amount, expected))
                end ;;
    match produced with
    | None => ret (-1, music, done)
    | Some (amount, expected) =>
        r <- after_production music amount expected ;;
        let (failed, music) := r in
        if failed then ret (-1, music, done)
        else match stream music with
             | Some _ =>
                 (* We'll pick it up from the stream next time around *)
                 ret (0, music, done)
             | None =>
                 (* We wrote output data *)
                 ret (amount, music, done)
             end
    end.

Definition TIMIDITY_GetSome (music : TIMIDITY_Music) (data : Ptr) (bytes : Z)
           (done : bool) : M W GetSome_result :=
  match stream music with
  | Some st =>
      filled <- SDL_GetAudioStreamData st data bytes ;;
      if negb (filled =? 0) then ret (filled, music, done)
      else GetSome_decode music data bytes done
  | None => GetSome_decode music data bytes done
  end.

End Codec.

Arguments TIMIDITY_Open {W X} pf spec.
Arguments TIMIDITY_CreateFromIO {W X} pf music_spec MIX_MAX_VOLUME src closeio.

(** ** The configuration search, as the interface description words it *)

(** The default configuration candidates: the platform's default paths,
    then the synthesizer's built-in default ([NULL]). *)
Definition default_candidates (pf : Platform) : list (option string) :=
  if SDL_PLATFORM_WIN32 pf
  then [Some "C:\TIMIDITY\TIMIDITY.CFG"%string; None]
  else [Some "/etc/timidity.cfg"%string; Some "/etc/timidity/freepats.cfg"%string; None].

(** The configuration override: the environment variable if set, else
    the path registered with the mixer, if any. *)
Definition cfg_override {W} {X : Externals W} (w : W) : option string :=
  match x_SDL_getenv "TIMIDITY_CFG" w with
  | Some c => Some c
  | None => x_Mix_GetTimidityCfg w
  end.

(** Try the candidates in order and stop at the first one that
    initializes the backend; with none left, report the last failure. *)
Fixpoint first_success {W} {X : Externals W} (cands : list (option string))
  : M W Z :=
  match cands with
  | [] => ret (-1)
  | c :: rest =>
      rc <- Timidity_Init c ;;
      if 0 <=? rc then ret rc
      else match rest with
           | [] => ret rc
           | _ :: _ => first_success rest
           end
  end.

(** ** Sequences of volume operations *)

Inductive VolumeOp :=
| Op_SetVolume (level : Z)
| Op_GetVolume.

(** Runs the operations in order on a session; yields the session at the
    end and the levels read by the [Op_GetVolume]s. *)
Fixpoint volume_ops {W} {X : Externals W} (music : TIMIDITY_Music)
         (ops : list VolumeOp) : M W (TIMIDITY_Music * list Z) :=
  match ops with
  | [] => ret (music, [])
  | Op_SetVolume v :: rest =>
      music' <- TIMIDITY_SetVolume music v ;;
      volume_ops music' rest
  | Op_GetVolume :: rest =>
      let v := TIMIDITY_GetVolume music in
      r <- volume_ops music rest ;;
      ret (fst r, v :: snd r)
  end.

Definition level_of (op : VolumeOp) : option Z :=
  match op with Op_SetVolume v => Some v | Op_GetVolume => None end.

(** Every level set by the sequence lies in [[0, max]]. *)
Definition levels_within (max : Z) (ops : list VolumeOp) : Prop :=
  Forall (fun op => match level_of op with
                    | Some v => 0 <= v <= max
                    | None => True
                    end) ops.

(** ** A scripted world *)

(** A small deterministic stand-in for SDL and Timidity, used to run the
    codec on concrete inputs: what each entry point answers is written
    down in advance. *)
Module Scripted.

Record World := mkWorld {
  env_cfg : option string;       (* value of the environment variable *)
  user_cfg : option string;      (* path registered with the mixer *)
  init_rcs : list Z;             (* answers of successive Timidity_Init *)
  calloc_r : option Ptr;
  load_r : option MidiSong;
  stream_r : option SDL_AudioStream;
  malloc_r : option Ptr;
  drained : list Z;              (* answers of successive SDL_GetAudioStreamData *)
  produced : list Z;             (* answers of successive Timidity_PlaySome *)
  put_ok : bool
}.

Definition next (l : list Z) (default : Z) : Z :=
  match l with [] => default | z :: _ => z end.

Definition with_init_rcs (w : World) (l : list Z) : World :=
  mkWorld (env_cfg w) (user_cfg w) l (calloc_r w) (load_r w) (stream_r w)
          (malloc_r w) (drained w) (produced w) (put_ok w).
Definition with_drained (w : World) (l : list Z) : World :=
  mkWorld (env_cfg w) (user_cfg w) (init_rcs w) (calloc_r w) (load_r w)
          (stream_r w) (malloc_r w) l (produced w) (put_ok w).
Definition with_produced (w : World) (l : list Z) : World :=
  mkWorld (env_cfg w) (user_cfg w) (init_rcs w) (calloc_r w) (load_r w)
          (stream_r w) (malloc_r w) (drained w) l (put_ok w).

#[export] Instance externals : Externals World := {|
  x_SDL_getenv := fun _ w => env_cfg w;
  x_Mix_GetTimidityCfg := fun w => user_cfg w;
  x_Timidity_Init := fun _ w => (next (init_rcs w) (-1), with_init_rcs w (tl (init_rcs w)));
  x_Timidity_Exit := fun w => w;
  x_SDL_calloc := fun _ _ w => (calloc_r w, w);
  x_Timidity_LoadSong := fun _ _ w => (load_r w, w);
  x_SDL_CreateAudioStream := fun _ _ w => (stream_r w, w);
  x_SDL_malloc := fun _ w => (malloc_r w, w);
  x_SDL_CloseIO := fun _ w => w;
  x_Timidity_SetVolume := fun _ _ w => w;
  x_Timidity_Start := fun _ w => w;
  x_Timidity_Seek := fun _ _ w => w;
  x_Timidity_IsActive := fun _ _ => true;
  x_SDL_GetAudioStreamData := fun _ _ _ w => (next (drained w) 0, with_drained w (tl (drained w)));
  x_Timidity_PlaySome := fun _ _ _ w => (next (produced w) 0, with_produced w (tl (produced w)));
  x_SDL_PutAudioStreamData := fun _ _ _ w => (put_ok w, w);
  x_Timidity_Stop := fun _ w => w;
  x_Timidity_FreeSong := fun _ w => w;
  x_SDL_DestroyAudioStream := fun _ w => w;
  x_SDL_free := fun _ w => w
|}.

(** Every allocation succeeds, nothing is buffered, the decoder has
    nothing more to give. *)
Definition quiet : World :=
  mkWorld None None [] (Some 100) (Some 7) (Some 5) (Some 9) [] [] true.

(** A 64-bit Unix build. *)
Definition unix64 : Platform := mkPlatform false 40 64.
Definition win64 : Platform := mkPlatform true 40 64.

(** Signed 16-bit samples ([SDL_AUDIO_S16LE] is [0x8010]) at 44.1 kHz. *)
Definition stereo : SDL_AudioSpec := mkSpec 32784 2 44100.
Definition surround : SDL_AudioSpec := mkSpec 32784 6 44100.

(** A session with an adapter and one without. *)
Definition with_adapter (n : Z) : TIMIDITY_Music :=
  mkMusic n (Some 7) (Some 5) (Some 9) 16384 128.
Definition without_adapter (n : Z) : TIMIDITY_Music :=
  mkMusic n (Some 7) None None 0 128.

(** The adapter has 512 bytes ready. *)
Definition buffered : World := with_drained quiet [512].

(** The decoder fills whatever it is asked for, once (16384 bytes with
    the adapter's scratch buffer). *)
Definition mid_song : World := with_produced quiet [16384].

(** The song ends half way through a unit (8192 of 16384 bytes) and the
    push of that half into the adapter fails. *)
Definition push_fails : World :=
  mkWorld None None [] (Some 100) (Some 7) (Some 5) (Some 9) [] [8192] false.

(** Allocation failures, one per construction step. *)
Definition no_memory : World :=
  mkWorld None None [] None (Some 7) (Some 5) (Some 9) [] [] true.
Definition bad_song : World :=
  mkWorld None None [] (Some 100) None (Some 5) (Some 9) [] [] true.
Definition no_stream : World :=
  mkWorld None None [] (Some 100) (Some 7) None (Some 9) [] [] true.
Definition no_scratch : World :=
  mkWorld None None [] (Some 100) (Some 7) (Some 5) None [] [] true.

(** Configuration: nothing set and the first default path fails; the
    environment variable set to a path that fails. *)
Definition second_path_works : World := with_init_rcs quiet [-1; 0].
Definition env_set : World :=
  mkWorld (Some "/opt/midi/timidity.cfg"%string) None [-1; 0]
          (Some 100) (Some 7) (Some 5) (Some 9) [] [] true.

End Scripted.

(** ** Driving a session *)

(** Consecutive pulls on one session: each request is the caller's buffer
    and its size; the session and [*done] of one call go into the next.
    Yields the byte counts returned, the session and [*done] at the end. *)
Fixpoint pulls {W} {X : Externals W} (reqs : list (Ptr * Z))
         (music : TIMIDITY_Music) (done : bool)
  : M W (list Z * TIMIDITY_Music * bool) :=
  match reqs with
  | [] => ret ([], music, done)
  | (data, bytes) :: rest =>
      r <- TIMIDITY_GetSome music data bytes done ;;
      tl <- pulls rest (snd (fst r)) (snd r) ;;
      ret (fst (fst r) :: fst (fst tl), snd (fst tl), snd tl)
  end.

(** The operations of the codec on an existing session, short of
    [TIMIDITY_Delete]. *)
Inductive Op :=
| Do_SetVolume (level : Z)
| Do_GetVolume
| Do_Play (n : Z)
| Do_IsPlaying
| Do_GetSome (data : Ptr) (bytes : Z) (done : bool)
| Do_Seek (position : float)
| Do_Stop.

Definition do_op {W} {X : Externals W} (music : TIMIDITY_Music) (op : Op)
  : M W TIMIDITY_Music :=
  match op with
  | Do_SetVolume v => TIMIDITY_SetVolume music v
  | Do_GetVolume => let _ := TIMIDITY_GetVolume music in ret music
  | Do_Play n => r <- TIMIDITY_Play music n ;; ret (snd r)
  | Do_IsPlaying => TIMIDITY_IsPlaying music ;;; ret music
  | Do_GetSome data bytes done =>
      r <- TIMIDITY_GetSome music data bytes done ;; ret (snd (fst r))
  | Do_Seek position => TIMIDITY_Seek music position ;;; ret music
  | Do_Stop => TIMIDITY_Stop music
  end.

(** Any sequence of them, in order. *)
Fixpoint drive {W} {X : Externals W} (music : TIMIDITY_Music) (ops : list Op)
  : M W TIMIDITY_Music :=
  match ops with
  | [] => ret music
  | op :: rest => music' <- do_op music op ;; drive music' rest
  end.

(** ** More bookkeeping on call logs *)

(** A computation only ever adds to the log: run from any log, it does
    what it does from the empty log, with its calls appended. *)
Definition appends {W A} (c : M W A) : Prop :=
  forall (w : W) (tr : list Event),
    c (mkState w tr)
    = (fst (c (mkState w [])),
       mkState (world (snd (c (mkState w []))))
               (tr ++ trace (snd (c (mkState w []))))).

(** The world a computation leaves behind. *)
Definition final_world {W A} (c : M W A) (w : W) : W := world (snd (run c w)).

Definition is_short (e : Event) : bool :=
  match e with
  | Ev_Timidity_PlaySome _ _ len r => r <? len
  | _ => false
  end.

(** How often the decoder gave less than it was asked for. *)
Definition short_count (tr : list Event) : Z := Z.of_nat (List.length (filter is_short tr)).

(** The log gives a resource back somewhere. *)
Definition releases_any (tr : list Event) : bool :=
  existsb (fun e => match releases e with Some _ => true | None => false end) tr.

(** The log touches the audio stream somewhere. *)
Definition uses_stream (tr : list Event) : bool :=
  existsb (fun e => match e with
                    | Ev_SDL_GetAudioStreamData _ _ _ _
                    | Ev_SDL_PutAudioStreamData _ _ _ _
                    | Ev_SDL_CreateAudioStream _ _ _
                    | Ev_SDL_DestroyAudioStream _ => true
                    | _ => false
                    end) tr.

(** Where one pull may have samples written, and how many at most: into
    the caller's [data], up to [bytes]; into the session's scratch buffer,
    up to its [buffer_size]. *)
Definition write_within (music : TIMIDITY_Music) (data : Ptr) (bytes : Z)
           (e : Event) : Prop :=
  match e with
  | Ev_SDL_GetAudioStreamData st buf len _ =>
      stream music = Some st /\ buf = data /\ len = bytes
  | Ev_Timidity_PlaySome s buf len _ =>
      s = song music
      /\ ((stream music = None /\ buf = Some data /\ len = bytes)
          \/ (stream music <> None /\ buf = buffer music /\ len = buffer_size music))
  | Ev_SDL_PutAudioStreamData st buf _ _ =>
      stream music = Some st /\ buf = buffer music
  | _ => True
  end.

(** The levels a sequence of volume operations sets, in order. *)
Definition levels_set (ops : list VolumeOp) : list Z :=
  flat_map (fun op => match op with Op_SetVolume v => [v] | Op_GetVolume => [] end) ops.

(** What the [Op_GetVolume]s of a sequence read: at each one, the level
    set last before it, or the volume the session started with. *)
Fixpoint levels_read (current : Z) (ops : list VolumeOp) : list Z :=
  match ops with
  | [] => []
  | Op_SetVolume v :: rest => levels_read v rest
  | Op_GetVolume :: rest => current :: levels_read current rest
  end.

(** The fields that tie a session to its resources. *)
Definition same_resources (a b : TIMIDITY_Music) : Prop :=
  song a = song b /\ stream a = stream b /\ buffer a = buffer b
  /\ buffer_size a = buffer_size b.


(** What a construction attempt may ask of the decoder and of SDL: the
    song is loaded from [src] in the local [spec]; an adapter, if any,
    converts from that [spec] to the mixer's format. *)
Definition create_call_ok (music_spec : SDL_AudioSpec) (src : SDL_IOStream)
           (e : Event) : Prop :=
  match e with
  | Ev_Timidity_LoadSong s spec _ => s = src /\ spec = local_spec music_spec
  | Ev_SDL_CreateAudioStream from to _ =>
      from = local_spec music_spec /\ to = music_spec /\ channels music_spec > 2
  | Ev_SDL_malloc _ _ => channels music_spec > 2
  | _ => True
  end.

Definition is_release (e : Event) : bool :=
  match releases e with Some _ => true | None => false end.

(** Up to the first allocation that fails anything goes; after it, only
    releases. *)
Fixpoint stops_at_failure (tr : list Event) : bool :=
  match tr with
  | [] => true
  | e :: tr' => if alloc_failed e then forallb is_release tr' else stops_at_failure tr'
  end.


(** The events of the four kinds a pull can make. *)
Definition is_drain (e : Event) : bool :=
  match e with Ev_SDL_GetAudioStreamData _ _ _ _ => true | _ => false end.
Definition is_push (e : Event) : bool :=
  match e with Ev_SDL_PutAudioStreamData _ _ _ _ => true | _ => false end.
Definition is_Start (e : Event) : bool :=
  match e with Ev_Timidity_Start _ => true | _ => false end.

(** A drain or, without adapter, a decode that reported the negative
    count [r]. *)
Definition reports_negative (music : TIMIDITY_Music) (r : Z) (e : Event) : bool :=
  match e with
  | Ev_SDL_GetAudioStreamData _ _ _ r' => (r' =? r) && (r <? 0)
  | Ev_Timidity_PlaySome _ _ _ r' =>
      match stream music with
      | None => (r' =? r) && (r <? 0)
      | Some _ => false
      end
  | _ => false
  end.


(** ** More scripted worlds and inputs *)

Module Scenes.

(** The decoder fills one 4096-byte request, then has nothing left. *)
Definition direct_song : Scripted.World := Scripted.with_produced Scripted.quiet [4096].

(** The adapter reports an error on the drain. *)
Definition drain_error : Scripted.World := Scripted.with_drained Scripted.quiet [-1].

(** Three pulls into the same 4096-byte buffer. *)
Definition three_pulls : list (Ptr * Z) := [(1000, 4096); (1000, 4096); (1000, 4096)].

(** A busy afternoon for one session. *)
Definition busy : list Op :=
  [Do_Play 2; Do_GetSome 1000 4096 false; Do_SetVolume 64; Do_GetVolume;
   Do_IsPlaying; Do_Seek 1.5%float; Do_GetSome 1000 4096 false; Do_Stop].

End Scenes.


(** * Properties *)

Section Properties.

Context {W : Type} {X : Externals W}.

(** ** Conversions that change nothing *)

Lemma to_Sint32_id z : CInt.in_Sint32 z -> CInt.to_Sint32 z = z.
Proof.
  unfold CInt.in_Sint32, CInt.Sint32_min, CInt.Sint32_max, CInt.to_Sint32.
  intros H. rewrite Z.mod_small; lia.
Qed.

Lemma to_Uint32_id z : 0 <= z < 2 ^ 32 -> CInt.to_Uint32 z = z.
Proof. intros H. unfold CInt.to_Uint32. now apply Z.mod_small. Qed.

(** ** Running the monad *)

Lemma run_bind {A B} (c : M W A) (k : A -> M W B) (s : State W) :
  bind c k s = k (fst (c s)) (snd (c s)).
Proof. unfold bind. now destruct (c s). Qed.

(** What [TIMIDITY_Play] does on any state: two calls, count stored. *)
Lemma TIMIDITY_Play_run (music : TIMIDITY_Music) (n : Z) (s : State W) :
  TIMIDITY_Play music n s =
  ((0, set_play_count music n),
   mkState (x_Timidity_Seek (song music) 0 (x_Timidity_Start (song music) (world s)))
           ((trace s ++ [Ev_Timidity_Start (song music)])
              ++ [Ev_Timidity_Seek (song music) 0])).
Proof. reflexivity. Qed.

(** ** Play *)

(** C4.  [TIMIDITY_Play] stores the requested repeat count in the session
    and, whatever the session and the count, starts the song and seeks it
    to position zero: the calls it makes are exactly [Timidity_Start]
    followed by [Timidity_Seek] to 0 ms, the same seek that
    [TIMIDITY_Seek] at 0.0 seconds performs, and it reports success. *)
Theorem TIMIDITY_Play_sets_count_and_rewinds :
  forall (music : TIMIDITY_Music) (n : Z) (w : W),
    play_count (snd (result (TIMIDITY_Play music n) w)) = n
    /\ snd (result (TIMIDITY_Play music n) w) = set_play_count music n
    /\ fst (result (TIMIDITY_Play music n) w) = 0
    /\ calls (TIMIDITY_Play music n) w
       = [Ev_Timidity_Start (song music); Ev_Timidity_Seek (song music) 0]
    /\ calls (TIMIDITY_Play music n) w
       = Ev_Timidity_Start (song music)
           :: calls (TIMIDITY_Seek (set_play_count music n) 0%float)
                    (x_Timidity_Start (song music) w).
Proof.
  intros music n w. unfold result, calls, run.
  rewrite TIMIDITY_Play_run. cbn. repeat split; reflexivity.
Qed.

(** ** The pull protocol *)

Ltac unfold_codec :=
  unfold result, calls, run, TIMIDITY_GetSome, GetSome_decode, after_production,
    TIMIDITY_Play, TIMIDITY_Seek, TIMIDITY_Stop, TIMIDITY_SetVolume,
    TIMIDITY_Delete, when_present,
    SDL_GetAudioStreamData, Timidity_PlaySome, SDL_PutAudioStreamData,
    Timidity_Start, Timidity_Seek, Timidity_Stop, Timidity_SetVolume,
    Timidity_FreeSong, SDL_DestroyAudioStream, SDL_free,
    bind, ret, call, call_void, call_pure in *.

(** Simplify, using what is known of the session's adapter. *)
Ltac crunch :=
  cbn;
  repeat (match goal with
          | H : stream ?m = _ |- context [stream ?m] => rewrite H
          end; cbn).

(** The drain step on a session with an adapter. *)
Lemma GetSome_fast_path music data bytes done st filled w' (s : State W) :
  stream music = Some st ->
  x_SDL_GetAudioStreamData st data bytes (world s) = (filled, w') ->
  filled <> 0 ->
  TIMIDITY_GetSome music data bytes done s
  = ((filled, music, done),
     mkState w' (trace s ++ [Ev_SDL_GetAudioStreamData st data bytes filled])).
Proof.
  intros Hst Hget Hnz. unfold_codec. rewrite Hst, Hget.
  destruct (Z.eqb_spec filled 0) as [E | _]; [contradiction | reflexivity].
Qed.

(** When the adapter is absent, or present and empty, the call continues
    with the decode step. *)
Lemma GetSome_slow_path music data bytes done (s : State W) :
  (forall st, stream music = Some st ->
              fst (x_SDL_GetAudioStreamData st data bytes (world s)) = 0) ->
  TIMIDITY_GetSome music data bytes done s
  = match stream music with
    | Some st =>
        GetSome_decode music data bytes done
          (mkState (snd (x_SDL_GetAudioStreamData st data bytes (world s)))
                   (trace s ++ [Ev_SDL_GetAudioStreamData st data bytes 0]))
    | None => GetSome_decode music data bytes done s
    end.
Proof.
  intros H. unfold TIMIDITY_GetSome.
  destruct (stream music) as [st |] eqn:Hst; [| reflexivity].
  specialize (H st eq_refl).
  unfold SDL_GetAudioStreamData, bind, call.
  destruct (x_SDL_GetAudioStreamData st data bytes (world s)) as [filled w'].
  cbn in H. subst filled. reflexivity.
Qed.

(** C1.  On a session with an adapter whose drain yields a non-zero count,
    the call returns exactly that count, leaves the session and [*done]
    alone, and the drain is the only external call it makes: the decoder
    is not invoked. *)
Theorem GetSome_drain_before_decode :
  forall (music : TIMIDITY_Music) (data : Ptr) (bytes : Z) (done : bool) (w : W)
         (st : SDL_AudioStream),
    stream music = Some st ->
    fst (x_SDL_GetAudioStreamData st data bytes w) <> 0 ->
    let filled := fst (x_SDL_GetAudioStreamData st data bytes w) in
    result (TIMIDITY_GetSome music data bytes done) w = (filled, music, done)
    /\ calls (TIMIDITY_GetSome music data bytes done) w
       = [Ev_SDL_GetAudioStreamData st data bytes filled]
    /\ decoder_invoked (calls (TIMIDITY_GetSome music data bytes done) w) = false.
Proof.
  intros music data bytes done w st Hst Hnz filled.
  destruct (x_SDL_GetAudioStreamData st data bytes w) as [f w'] eqn:Hget.
  cbn in Hnz, filled. subst filled.
  unfold result, calls, run.
  rewrite (GetSome_fast_path music data bytes done st f w' (mkState w []) Hst Hget Hnz).
  cbn. repeat split; reflexivity.
Qed.

(** Whatever the decode step does, a non-zero return leaves [*done] as the
    caller set it. *)
Lemma GetSome_decode_done music data bytes done (s : State W) :
  fst (fst (fst (GetSome_decode music data bytes done s))) <> 0 ->
  snd (fst (GetSome_decode music data bytes done s)) = done.
Proof.
  unfold_codec.
  destruct (play_count music =? 0); [cbn; congruence |].
  intros _.
  destruct (stream music) as [st |] eqn:Hst.
  - destruct (x_Timidity_PlaySome _ _ _ _) as [amount w1].
    destruct (x_SDL_PutAudioStreamData _ _ _ _) as [[|] w2]; cbn; [| reflexivity].
    destruct (amount <? buffer_size music); [| cbn; rewrite Hst; reflexivity].
    destruct (play_count music =? 1); cbn; rewrite Hst; reflexivity.
  - destruct (x_Timidity_PlaySome _ _ _ _) as [amount w1]. cbn.
    destruct (amount <? bytes); [| cbn; rewrite Hst; reflexivity].
    destruct (play_count music =? 1); cbn; rewrite Hst; reflexivity.
Qed.

(** C2.  With a repeat count of 0 and nothing to drain (no adapter, or an
    adapter that yields 0 bytes) the call sets [*done], returns 0 and does
    not ask the decoder for anything.  And in every call, a non-zero return
    value goes with a [*done] the call has not touched: the call never both
    sets [*done] and returns bytes. *)
Theorem GetSome_done_when_exhausted :
  forall (music : TIMIDITY_Music) (data : Ptr) (bytes : Z) (done : bool) (w : W),
    (play_count music = 0 ->
     (forall st, stream music = Some st ->
                 fst (x_SDL_GetAudioStreamData st data bytes w) = 0) ->
     result (TIMIDITY_GetSome music data bytes done) w = (0, music, true)
     /\ decoder_invoked (calls (TIMIDITY_GetSome music data bytes done) w) = false)
    /\ (fst (fst (result (TIMIDITY_GetSome music data bytes done) w)) <> 0 ->
        snd (result (TIMIDITY_GetSome music data bytes done) w) = done)
    /\ (done = false ->
        snd (result (TIMIDITY_GetSome music data bytes done) w) = true ->
        fst (fst (result (TIMIDITY_GetSome music data bytes done) w)) = 0).
Proof.
  intros music data bytes done w.
  assert (Hnz : fst (fst (result (TIMIDITY_GetSome music data bytes done) w)) <> 0 ->
                snd (result (TIMIDITY_GetSome music data bytes done) w) = done).
  { unfold result, run, TIMIDITY_GetSome.
    destruct (stream music) as [st |] eqn:Hst.
    - unfold SDL_GetAudioStreamData, bind, call. cbn [world trace].
      destruct (x_SDL_GetAudioStreamData st data bytes w) as [filled w'].
      destruct (filled =? 0); cbn [negb].
      + apply GetSome_decode_done.
      + reflexivity.
    - apply GetSome_decode_done. }
  split; [| split].
  - intros Hpc Hempty. unfold result, calls, run.
    rewrite GetSome_slow_path by exact Hempty.
    unfold GetSome_decode. rewrite Hpc. cbn.
    destruct (stream music); cbn; split; reflexivity.
  - exact Hnz.
  - intros Hd Hset.
    destruct (Z.eq_dec (fst (fst (result (TIMIDITY_GetSome music data bytes done) w))) 0)
      as [E | E]; [exact E |].
    apply Hnz in E. rewrite E, Hd in Hset. discriminate.
Qed.


(** ** Short production *)

(** C3, as the code has it.  Take a call in which the decoder produced
    fewer bytes than it was asked for and, where there is an adapter, the
    push of those bytes into it succeeded.  Then: a repeat count of exactly
    1 becomes 0 and nothing is restarted; a repeat count above 1 makes the
    call end with [TIMIDITY_Play] on the count less one; a negative repeat
    count makes it end with [TIMIDITY_Play] on -1, so the sentinel -1 stays
    what it is.  The call allocates nothing: the session is re-armed in
    place. *)
Theorem GetSome_short_production :
  forall (music : TIMIDITY_Music) (data : Ptr) (bytes : Z) (done : bool) (w : W),
    short_production (calls (TIMIDITY_GetSome music data bytes done) w) = true ->
    push_failed (calls (TIMIDITY_GetSome music data bytes done) w) = false ->
    let tr := calls (TIMIDITY_GetSome music data bytes done) w in
    let music' := snd (fst (result (TIMIDITY_GetSome music data bytes done) w)) in
    (play_count music = 1 ->
     music' = set_play_count music 0 /\ restarted tr = false)
    /\ (play_count music > 1 ->
        music' = set_play_count music (play_count music - 1)
        /\ exists pre w1,
            tr = pre ++ calls (TIMIDITY_Play music (play_count music - 1)) w1
            /\ music' = snd (result (TIMIDITY_Play music (play_count music - 1)) w1))
    /\ (play_count music < 0 ->
        music' = set_play_count music (-1)
        /\ exists pre w1,
            tr = pre ++ calls (TIMIDITY_Play music (-1)) w1
            /\ music' = snd (result (TIMIDITY_Play music (-1)) w1))
    /\ allocates tr = false.
Proof.
  intros music data bytes done w Hshort Hpush tr music'.
  subst tr music'. revert Hshort Hpush.
  unfold_codec. unfold short_production, push_failed, allocates, restarted.
  cbn.
  destruct (stream music) as [st |] eqn:Hst; cbn.
  - destruct (x_SDL_GetAudioStreamData st data bytes w) as [filled w1]; cbn.
    destruct (filled =? 0) eqn:Hf; cbn; [| intros H; discriminate H].
    destruct (play_count music =? 0) eqn:Hpc0; cbn; [intros H; discriminate H |].
    destruct (x_Timidity_PlaySome _ _ _ _) as [amount w2]; cbn.
    destruct (x_SDL_PutAudioStreamData _ _ _ _) as [[|] w3]; cbn;
      [| intros _ H; discriminate H].
    destruct (amount <? buffer_size music) eqn:Hlt; crunch;
      [| rewrite Hlt; intros H; discriminate H].
    destruct (Z.eqb_spec (play_count music) 1) as [E1 | N1]; crunch; intros _ _.
    + repeat split; try reflexivity; intros; lia.
    + destruct (Z.gtb_spec (play_count music) 0) as [Hpos | Hneg].
      * split; [intros; lia |]. split; [| split; [intros; lia | reflexivity]].
        intros _. split; [reflexivity |].
        exists [Ev_SDL_GetAudioStreamData st data bytes filled;
                Ev_Timidity_PlaySome (song music) (buffer music) (buffer_size music) amount;
                Ev_SDL_PutAudioStreamData st (buffer music) amount true], w3.
        split; reflexivity.
      * split; [intros; lia |]. split; [intros; lia |]. split; [| reflexivity].
        intros _. split; [reflexivity |].
        exists [Ev_SDL_GetAudioStreamData st data bytes filled;
                Ev_Timidity_PlaySome (song music) (buffer music) (buffer_size music) amount;
                Ev_SDL_PutAudioStreamData st (buffer music) amount true], w3.
        split; reflexivity.
  - destruct (play_count music =? 0) eqn:Hpc0; cbn; [intros H; discriminate H |].
    destruct (x_Timidity_PlaySome _ _ _ _) as [amount w2]; cbn.
    destruct (amount <? bytes) eqn:Hlt; crunch;
      [| rewrite Hlt; intros H; discriminate H].
    destruct (Z.eqb_spec (play_count music) 1) as [E1 | N1]; crunch; intros _ _.
    + repeat split; try reflexivity; intros; lia.
    + destruct (Z.gtb_spec (play_count music) 0) as [Hpos | Hneg].
      * split; [intros; lia |]. split; [| split; [intros; lia | reflexivity]].
        intros _. split; [reflexivity |].
        exists [Ev_Timidity_PlaySome (song music) (Some data) bytes amount], w2.
        split; reflexivity.
      * split; [intros; lia |]. split; [intros; lia |]. split; [| reflexivity].
        intros _. split; [reflexivity |].
        exists [Ev_Timidity_PlaySome (song music) (Some data) bytes amount], w2.
        split; reflexivity.
Qed.

(** ** Construction and teardown *)

Ltac unfold_create :=
  unfold result, calls, run, TIMIDITY_CreateFromIO, TIMIDITY_Delete, when_present,
    local_spec, need_stream,
    SDL_calloc, Timidity_LoadSong, SDL_CreateAudioStream, SDL_malloc, SDL_CloseIO,
    Timidity_FreeSong, SDL_DestroyAudioStream, SDL_free,
    bind, ret, call, call_void in *.

(** Splits a construction attempt into its five outcomes: no session
    memory, no song, no adapter, no scratch buffer, or success (with or
    without adapter). *)
Ltac create_cases music_spec :=
  unfold_create; cbn;
  destruct (channels music_spec >? 2) eqn:Hneed; cbn;
  (destruct (x_SDL_calloc _ _ _) as [[context0 |] w1]; cbn;
   [ destruct (x_Timidity_LoadSong _ _ _) as [[s0 |] w2]; cbn;
     [ try (destruct (x_SDL_CreateAudioStream _ _ _) as [[st0 |] w3]; cbn;
            [ destruct (x_SDL_malloc _ _) as [[b0 |] w4]; cbn | ])
     | ]
   | ]).

Lemma SDL_AUDIO_BITSIZE_range (x : Z) : 0 <= SDL_AUDIO_BITSIZE x <= 255.
Proof.
  unfold SDL_AUDIO_BITSIZE.
  replace (Z.land x 255) with (x mod 256)
    by (symmetry; apply (Z.land_ones x 8); lia).
  pose proof (Z.mod_pos_bound x 256 eq_refl). lia.
Qed.

(** With two channels the product stays far inside [Sint32]: no
    conversion changes it. *)
Lemma scratch_size_stereo (spec : SDL_AudioSpec) :
  channels spec = 2 ->
  scratch_size spec = 4096 * (SDL_AUDIO_BITSIZE (format spec) / 8) * 2.
Proof.
  intros Hc. unfold scratch_size. rewrite Hc.
  pose proof (SDL_AUDIO_BITSIZE_range (format spec)) as Hr.
  assert (0 <= SDL_AUDIO_BITSIZE (format spec) / 8 <= 31) as Hq.
  { split; [apply Z.div_pos; lia |].
    enough (SDL_AUDIO_BITSIZE (format spec) / 8 < 32) by lia.
    apply Z.div_lt_upper_bound; lia. }
  rewrite (to_Uint32_id 2) by lia.
  rewrite (to_Uint32_id (4096 * _)) by lia.
  rewrite to_Uint32_id by lia.
  apply to_Sint32_id. unfold CInt.in_Sint32, CInt.Sint32_min, CInt.Sint32_max. lia.
Qed.

(** C5.  In a session that [TIMIDITY_CreateFromIO] built, the adapter
    exists exactly when the channel count of the mixer's format
    ([music_spec], which the function reads the count from) exceeds 2, and
    the scratch buffer exists exactly when the adapter does.  The buffer
    size is then 4096 frames times the bytes per sample times the channel
    count of the local [spec], the one handed to the decoder, which is 2
    in that case. *)
Theorem CreateFromIO_adapter_iff_scratch :
  forall (pf : Platform) (music_spec : SDL_AudioSpec) (MIX_MAX_VOLUME : Z)
         (src : SDL_IOStream) (closeio : bool) (w : W)
         (context : Ptr) (music : TIMIDITY_Music),
    result (TIMIDITY_CreateFromIO pf music_spec MIX_MAX_VOLUME src closeio) w
    = Some (context, music) ->
    (stream music <> None <-> channels music_spec > 2)
    /\ (buffer music <> None <-> stream music <> None)
    /\ (stream music <> None ->
        channels (local_spec music_spec) = 2
        /\ buffer_size music
           = 4096 * (SDL_AUDIO_BITSIZE (format (local_spec music_spec)) / 8)
             * channels (local_spec music_spec))
    /\ (stream music = None -> buffer_size music = 0).
Proof.
  intros pf music_spec MAX src closeio w context music.
  pose proof (scratch_size_stereo (set_channels music_spec 2) eq_refl) as Hsz.
  create_cases music_spec; intros H; try discriminate H.
  - destruct closeio; cbn in H; injection H as <- <-; cbn.
    all: (split; [split; [intros _; apply Z.gtb_lt in Hneed; lia | discriminate] |]).
    all: (split; [split; discriminate |]).
    all: (split; [intros _; split; [reflexivity | exact Hsz] | discriminate]).
  - destruct closeio; cbn in H; injection H as <- <-; cbn.
    all: assert (~ channels music_spec > 2)
      by (destruct (Z.gtb_spec (channels music_spec) 2); [discriminate | lia]).
    all: (split; [split; [congruence | contradiction] |]).
    all: (split; [split; congruence |]).
    all: (split; [congruence | reflexivity]).
Qed.


(** What [TIMIDITY_Delete] calls: one release per pointer that is set, in
    the order song, adapter, scratch buffer, then the struct itself. *)
Lemma TIMIDITY_Delete_calls (context : Ptr) (music : TIMIDITY_Music) (s : State W) :
  trace (snd (TIMIDITY_Delete context music s))
  = trace s
      ++ opt_list Ev_Timidity_FreeSong (song music)
      ++ opt_list Ev_SDL_DestroyAudioStream (stream music)
      ++ opt_list Ev_SDL_free (buffer music)
      ++ [Ev_SDL_free context].
Proof.
  unfold_create.
  destruct (song music), (stream music), (buffer music); cbn;
    repeat rewrite <- app_assoc; reflexivity.
Qed.

Ltac settle_releases :=
  cbn;
  repeat (first [ rewrite Z.eqb_refl
                | match goal with
                  | |- context [?a =? ?b] => destruct (Z.eqb_spec a b); subst
                  end ];
          cbn);
  try reflexivity; try congruence.

(** Deleting a session gives back everything it holds. *)
Lemma TIMIDITY_Delete_releases_all (context : Ptr) (music : TIMIDITY_Music) (w : W) :
  outstanding_from (owned_by context music) (calls (TIMIDITY_Delete context music) w) = [].
Proof.
  unfold calls, run. rewrite TIMIDITY_Delete_calls. unfold owned_by.
  destruct (song music), (stream music), (buffer music); settle_releases.
Qed.

(** C6.  A construction attempt in which a sub-allocation fails (the
    session memory, the song, the adapter or the scratch buffer) returns
    [NULL], and by then every resource the attempt had acquired has been
    released again; a [NULL] result has no other cause.  [TIMIDITY_Delete]
    works on any session, whichever of song, adapter and scratch buffer are
    set: it releases exactly those that are set, then the struct, and so
    gives back everything the session holds. *)
Theorem CreateFromIO_failure_tears_down :
  forall (pf : Platform) (music_spec : SDL_AudioSpec) (MIX_MAX_VOLUME : Z)
         (src : SDL_IOStream) (closeio : bool) (w : W),
    (existsb alloc_failed
       (calls (TIMIDITY_CreateFromIO pf music_spec MIX_MAX_VOLUME src closeio) w) = true ->
     result (TIMIDITY_CreateFromIO pf music_spec MIX_MAX_VOLUME src closeio) w = None
     /\ outstanding
          (calls (TIMIDITY_CreateFromIO pf music_spec MIX_MAX_VOLUME src closeio) w) = [])
    /\ (result (TIMIDITY_CreateFromIO pf music_spec MIX_MAX_VOLUME src closeio) w = None ->
        existsb alloc_failed
          (calls (TIMIDITY_CreateFromIO pf music_spec MIX_MAX_VOLUME src closeio) w) = true)
    /\ (forall (context : Ptr) (music : TIMIDITY_Music) (w' : W),
           calls (TIMIDITY_Delete context music) w'
           = opt_list Ev_Timidity_FreeSong (song music)
               ++ opt_list Ev_SDL_DestroyAudioStream (stream music)
               ++ opt_list Ev_SDL_free (buffer music)
               ++ [Ev_SDL_free context]
           /\ outstanding_from (owned_by context music)
                (calls (TIMIDITY_Delete context music) w') = []).
Proof.
  intros pf music_spec MAX src closeio w.
  split; [| split].
  - unfold outstanding. create_cases music_spec;
      try (destruct closeio; cbn); intros H; try discriminate H;
      split; try reflexivity; settle_releases.
  - create_cases music_spec;
      try (destruct closeio; cbn); intros H; try discriminate H; reflexivity.
  - intros context music w'. split.
    + unfold calls, run. rewrite TIMIDITY_Delete_calls. reflexivity.
    + apply TIMIDITY_Delete_releases_all.
Qed.

(** A session that was built holds what the attempt acquired, no more and
    no less. *)
Lemma CreateFromIO_success_owns
      (pf : Platform) (music_spec : SDL_AudioSpec) (MIX_MAX_VOLUME : Z)
      (src : SDL_IOStream) (closeio : bool) (w : W)
      (context : Ptr) (music : TIMIDITY_Music) :
  result (TIMIDITY_CreateFromIO pf music_spec MIX_MAX_VOLUME src closeio) w
  = Some (context, music) ->
  outstanding (calls (TIMIDITY_CreateFromIO pf music_spec MIX_MAX_VOLUME src closeio) w)
  = owned_by context music.
Proof.
  unfold outstanding, owned_by. create_cases music_spec;
    try (destruct closeio; cbn); intros H; try discriminate H;
    injection H as <- <-; reflexivity.
Qed.

(** C10.  With [closeio] set, [TIMIDITY_CreateFromIO] closes the input
    stream exactly when it succeeds: a successful call makes one
    [SDL_CloseIO] call on [src], a failed call makes none and leaves the
    stream to the caller. *)
Theorem CreateFromIO_closes_io_iff_success :
  forall (pf : Platform) (music_spec : SDL_AudioSpec) (MIX_MAX_VOLUME : Z)
         (src : SDL_IOStream) (w : W),
    (io_closed (calls (TIMIDITY_CreateFromIO pf music_spec MIX_MAX_VOLUME src true) w) = true
     <-> result (TIMIDITY_CreateFromIO pf music_spec MIX_MAX_VOLUME src true) w <> None)
    /\ filter is_CloseIO
         (calls (TIMIDITY_CreateFromIO pf music_spec MIX_MAX_VOLUME src true) w)
       = match result (TIMIDITY_CreateFromIO pf music_spec MIX_MAX_VOLUME src true) w with
         | Some _ => [Ev_SDL_CloseIO src]
         | None => []
         end.
Proof.
  intros pf music_spec MAX src w. unfold io_closed.
  create_cases music_spec; (split; [split |]);
    try reflexivity; try discriminate; try congruence.
Qed.


(** ** Backend initialization *)

(** Case split on the sign of a status, with both tests the code and the
    search make on it rewritten. *)
Ltac sign rc :=
  let E1 := fresh "E" in
  let E2 := fresh "E" in
  destruct (Z.lt_ge_cases rc 0);
  [ assert (E1 : (rc <? 0) = true) by (apply Z.ltb_lt; lia);
    assert (E2 : (0 <=? rc) = false) by (apply Z.leb_gt; lia)
  | assert (E1 : (rc <? 0) = false) by (apply Z.ltb_ge; lia);
    assert (E2 : (0 <=? rc) = true) by (apply Z.leb_le; lia) ];
  repeat (progress (rewrite ?E1, ?E2; cbn)).

Ltac finish_search :=
  repeat split;
  repeat match goal with
         | H : (?a <? ?b) = _ |- context [?a <? ?b] => rewrite H; cbn
         end;
  try reflexivity;
  try (eexists; split; [reflexivity | intros; first [reflexivity | lia]]).

(** C7.  With an override present (environment variable first, else the
    user-supplied path) [TIMIDITY_Open] makes a single [Timidity_Init]
    call, on the override, and returns its status whatever it is.  Without
    one it behaves as the in-order search over the default candidates
    (platform paths, then the built-in default): the configurations tried
    are an initial segment of the candidates, every try but the last
    failed, the status returned is that of the last try, and a failure
    status means that no candidate was left untried. *)
Theorem TIMIDITY_Open_config_search :
  forall (pf : Platform) (spec : SDL_AudioSpec) (w : W),
    let tr := calls (TIMIDITY_Open pf spec) w in
    let rc := result (TIMIDITY_Open pf spec) w in
    match cfg_override w with
    | Some c =>
        init_cfgs tr = [Some c]
        /\ init_rcs tr = [rc]
        /\ rc = fst (x_Timidity_Init (Some c) w)
    | None =>
        rc = result (first_success (default_candidates pf)) w
        /\ filter is_Init tr = calls (first_success (default_candidates pf)) w
        /\ (exists untried,
               default_candidates pf = init_cfgs tr ++ untried
               /\ (rc < 0 -> untried = []))
        /\ failed_until_last (init_rcs tr) = true
        /\ rc = last (init_rcs tr) (-1)
    end.
Proof.
  intros pf spec w tr rc. subst tr rc.
  unfold cfg_override, result, calls, run, TIMIDITY_Open, init_if_defined,
    TIMIDITY_CFG, TIMIDITY_CFG_ETC, TIMIDITY_CFG_FREEPATS, default_candidates,
    first_success, SDL_getenv, Mix_GetTimidityCfg, Timidity_Init,
    bind, ret, call, call_pure.
  cbn.
  destruct (x_SDL_getenv "TIMIDITY_CFG" w) as [c |]; cbn.
  { destruct (x_Timidity_Init (Some c) w) as [rc w1]; cbn. repeat split. }
  destruct (x_Mix_GetTimidityCfg w) as [c |]; cbn.
  { destruct (x_Timidity_Init (Some c) w) as [rc w1]; cbn. repeat split. }
  destruct (SDL_PLATFORM_WIN32 pf); cbn.
  - destruct (x_Timidity_Init _ w) as [rc1 w1]; cbn. sign rc1.
    + destruct (x_Timidity_Init _ w1) as [rc2 w2]; cbn. sign rc2; finish_search.
    + finish_search.
  - destruct (x_Timidity_Init _ w) as [rc1 w1]; cbn. sign rc1.
    + destruct (x_Timidity_Init _ w1) as [rc2 w2]; cbn. sign rc2.
      * destruct (x_Timidity_Init _ w2) as [rc3 w3]; cbn. sign rc3; finish_search.
      * finish_search.
    + finish_search.
Qed.


(** ** Stop *)

(** Only a session whose repeat count is 0 is ever reported done. *)
Lemma GetSome_done_needs_zero_count music data bytes done (w : W) :
  play_count music <> 0 ->
  snd (result (TIMIDITY_GetSome music data bytes done) w) = done.
Proof.
  intros Hpc. apply Z.eqb_neq in Hpc.
  unfold_codec. cbn.
  destruct (stream music) as [st |] eqn:Hst; cbn.
  - destruct (x_SDL_GetAudioStreamData st data bytes w) as [filled w1]; cbn.
    destruct (filled =? 0); cbn; [| reflexivity].
    rewrite Hpc.
    destruct (x_Timidity_PlaySome _ _ _ _) as [amount w2]; cbn.
    destruct (x_SDL_PutAudioStreamData _ _ _ _) as [[|] w3]; cbn; [| reflexivity].
    destruct (amount <? buffer_size music); crunch; [| reflexivity].
    destruct (play_count music =? 1); crunch; reflexivity.
  - rewrite Hpc.
    destruct (x_Timidity_PlaySome _ _ _ _) as [amount w2]; cbn.
    destruct (amount <? bytes); crunch; [| reflexivity].
    destruct (play_count music =? 1); crunch; reflexivity.
Qed.

(** C8, as the code has it.  [TIMIDITY_Stop] makes one call,
    [Timidity_Stop] on the session's song, and leaves the session as it
    was: the repeat count after the call is the repeat count before it,
    whatever that is.  The call has no done signal of its own, and after
    it a session with a non-zero repeat count is still not reported done
    by the next pull. *)
Theorem TIMIDITY_Stop_keeps_repeat_count :
  forall (music : TIMIDITY_Music) (w : W),
    result (TIMIDITY_Stop music) w = music
    /\ play_count (result (TIMIDITY_Stop music) w) = play_count music
    /\ calls (TIMIDITY_Stop music) w = [Ev_Timidity_Stop (song music)]
    /\ (play_count music <> 0 ->
        forall (data : Ptr) (bytes : Z) (w' : W),
          snd (result (TIMIDITY_GetSome (result (TIMIDITY_Stop music) w)
                                        data bytes false) w') = false).
Proof.
  intros music w.
  assert (E : result (TIMIDITY_Stop music) w = music) by reflexivity.
  rewrite E. repeat split.
  intros Hpc data bytes w'. now apply GetSome_done_needs_zero_count.
Qed.

(** ** Volume *)

(** [TIMIDITY_SetVolume] stores the level it is given and passes it on. *)
Lemma TIMIDITY_SetVolume_run (music : TIMIDITY_Music) (v : Z) (s : State W) :
  TIMIDITY_SetVolume music v s
  = (set_volume music v,
     mkState (x_Timidity_SetVolume (song music) v (world s))
             (trace s ++ [Ev_Timidity_SetVolume (song music) v])).
Proof. reflexivity. Qed.

(** Levels inside the range keep the volume inside the range. *)
Lemma volume_ops_in_range (max : Z) (ops : list VolumeOp) :
  levels_within max ops ->
  forall (music : TIMIDITY_Music) (s : State W),
    0 <= volume music <= max ->
    0 <= volume (fst (fst (volume_ops music ops s))) <= max
    /\ Forall (fun v => 0 <= v <= max) (snd (fst (volume_ops music ops s))).
Proof.
  induction 1 as [| op ops Hop Hops IH]; intros music s Hv.
  - cbn. split; [exact Hv | constructor].
  - destruct op as [v |]; cbn [volume_ops].
    + rewrite run_bind, TIMIDITY_SetVolume_run. cbn [fst snd].
      apply IH. cbn. exact Hop.
    + rewrite run_bind. unfold ret. cbn [fst snd].
      destruct (IH music s Hv) as [H1 H2].
      split; [exact H1 |]. constructor; [exact Hv | exact H2].
Qed.

(** C9, as the code has it.  A session starts at [MIX_MAX_VOLUME], and
    [TIMIDITY_SetVolume] stores the level it is given as it is.  So for a
    session that [TIMIDITY_CreateFromIO] built and a sequence of
    SetVolume/GetVolume operations whose levels all lie in
    [[0, MIX_MAX_VOLUME]], the volume field lies in [[0, MIX_MAX_VOLUME]]
    at the end of the sequence (hence after each of its prefixes), and so
    does every level read on the way. *)
Theorem volume_in_range_for_levels_in_range :
  forall (pf : Platform) (music_spec : SDL_AudioSpec) (MIX_MAX_VOLUME : Z)
         (src : SDL_IOStream) (closeio : bool) (w : W)
         (context : Ptr) (music : TIMIDITY_Music)
         (ops : list VolumeOp) (w' : W),
    0 <= MIX_MAX_VOLUME ->
    result (TIMIDITY_CreateFromIO pf music_spec MIX_MAX_VOLUME src closeio) w
    = Some (context, music) ->
    levels_within MIX_MAX_VOLUME ops ->
    volume music = MIX_MAX_VOLUME
    /\ 0 <= volume (fst (result (volume_ops music ops) w')) <= MIX_MAX_VOLUME
    /\ Forall (fun v => 0 <= v <= MIX_MAX_VOLUME)
              (snd (result (volume_ops music ops) w')).
Proof.
  intros pf music_spec MAX src closeio w context music ops w' Hmax Hcreate Hops.
  assert (Hvol : volume music = MAX).
  { revert Hcreate. create_cases music_spec;
      try (destruct closeio; cbn); intros H; try discriminate H;
      injection H as <- <-; reflexivity. }
  split; [exact Hvol |].
  unfold result, run. apply volume_ops_in_range; [exact Hops | lia].
Qed.


(** * Further properties of the codec *)

(** ** Logs only grow *)

Lemma appends_ret {A} (a : A) : appends (ret (W := W) a).
Proof. intros w tr. unfold ret. cbn. now rewrite app_nil_r. Qed.

Lemma appends_call {R} (f : W -> R * W) (ev : R -> Event) : appends (call f ev).
Proof. intros w tr. unfold call. cbn. now destruct (f w). Qed.

Lemma appends_call_void (f : W -> W) (ev : Event) : appends (call_void f ev).
Proof. intros w tr. reflexivity. Qed.

Lemma appends_call_pure {R} (f : W -> R) (ev : R -> Event) : appends (call_pure f ev).
Proof. intros w tr. reflexivity. Qed.

Lemma appends_bind {A B} (c : M W A) (k : A -> M W B) :
  appends c -> (forall a, appends (k a)) -> appends (bind c k).
Proof.
  intros Hc Hk w tr. unfold bind.
  rewrite (Hc w tr).
  destruct (c (mkState w [])) as [a [w1 tr1]]. cbn.
  rewrite (Hk a w1 (tr ++ tr1)), (Hk a w1 tr1).
  destruct (k a (mkState w1 [])) as [b [w2 tr2]]. cbn.
  now rewrite app_assoc.
Qed.

Ltac prove_appends :=
  repeat first
    [ apply appends_ret
    | apply appends_call
    | apply appends_call_void
    | apply appends_call_pure
    | apply appends_bind; [| intros ?]
    | match goal with
      | |- appends (match ?x with _ => _ end) => destruct x
      end ].

Lemma appends_Play music n : appends (TIMIDITY_Play music n).
Proof.
  unfold TIMIDITY_Play, TIMIDITY_Seek, Timidity_Start, Timidity_Seek. prove_appends.
Qed.

Lemma appends_GetSome music data bytes done :
  appends (TIMIDITY_GetSome music data bytes done).
Proof.
  unfold TIMIDITY_GetSome, GetSome_decode, after_production,
    SDL_GetAudioStreamData, Timidity_PlaySome, SDL_PutAudioStreamData.
  prove_appends; apply appends_Play.
Qed.

Lemma appends_do_op music op : appends (do_op music op).
Proof.
  destruct op; unfold do_op, TIMIDITY_SetVolume, TIMIDITY_IsPlaying, TIMIDITY_Seek,
    TIMIDITY_Stop, Timidity_SetVolume, Timidity_IsActive, Timidity_Seek, Timidity_Stop;
    prove_appends; first [apply appends_Play | apply appends_GetSome].
Qed.

Lemma appends_pulls reqs : forall music done, appends (pulls reqs music done).
Proof.
  induction reqs as [| [data bytes] rest IH]; intros music done; cbn [pulls].
  - apply appends_ret.
  - apply appends_bind; [apply appends_GetSome | intros r].
    apply appends_bind; [apply IH | intros tl; apply appends_ret].
Qed.

Lemma appends_drive ops : forall music, appends (drive music ops).
Proof.
  induction ops as [| op rest IH]; intros music; cbn [drive].
  - apply appends_ret.
  - apply appends_bind; [apply appends_do_op | intros m; apply IH].
Qed.

(** Sequencing two log-appending computations: the result of the second
    is taken in the world the first leaves, and the logs concatenate. *)
Lemma run_seq {A B} (c : M W A) (k : A -> M W B) (w : W) :
  (forall a, appends (k a)) ->
  result (bind c k) w = result (k (result c w)) (final_world c w)
  /\ calls (bind c k) w = calls c w ++ calls (k (result c w)) (final_world c w)
  /\ final_world (bind c k) w = final_world (k (result c w)) (final_world c w).
Proof.
  intros Hk. unfold result, calls, final_world, run, bind.
  destruct (c (mkState w [])) as [a [w1 tr1]]. cbn.
  rewrite (Hk a w1 tr1).
  destruct (k a (mkState w1 [])) as [b [w2 tr2]]. cbn. repeat split.
Qed.


(** ** One pull, in full *)

(** Splits one call of [TIMIDITY_GetSome] into its outcomes. *)
Ltac after_decode pc len :=
  match goal with
  | |- context [?amount <? len] =>
      destruct (Z.ltb_spec amount len); crunch;
      [ destruct (Z.eqb_spec pc 1); crunch;
        [| destruct (Z.gtb_spec pc 0); crunch ]
      | ]
  end.

Ltac getsome_cases music data bytes w :=
  unfold_codec; cbn;
  destruct (stream music) as [st |] eqn:Hst; cbn;
  [ destruct (x_SDL_GetAudioStreamData st data bytes w) as [filled w1] eqn:Hget; cbn;
    destruct (Z.eqb_spec filled 0) as [Hfilled | Hfilled]; cbn;
    [ destruct (Z.eqb_spec (play_count music) 0) as [Hpc0 | Hpc0]; cbn;
      [| destruct (x_Timidity_PlaySome (song music) (buffer music)
                                       (buffer_size music) w1)
           as [amount w2] eqn:Hplay; cbn;
         destruct (x_SDL_PutAudioStreamData st (buffer music) amount w2)
           as [[|] w3] eqn:Hput; cbn;
         [ after_decode (play_count music) (buffer_size music) |] ]
    |]
  | destruct (Z.eqb_spec (play_count music) 0) as [Hpc0 | Hpc0]; cbn;
    [| destruct (x_Timidity_PlaySome (song music) (Some data) bytes w)
         as [amount w2] eqn:Hplay; cbn;
       after_decode (play_count music) bytes ] ].

(** X1.  A pull never touches the fields that tie the session to its
    resources, nor the volume; and unless the decoder came up short in this
    very call, the whole session is as it was. *)
Theorem GetSome_frame :
  forall (music : TIMIDITY_Music) (data : Ptr) (bytes : Z) (done : bool) (w : W),
    same_resources (snd (fst (result (TIMIDITY_GetSome music data bytes done) w))) music
    /\ volume (snd (fst (result (TIMIDITY_GetSome music data bytes done) w)))
       = volume music
    /\ (short_production (calls (TIMIDITY_GetSome music data bytes done) w) = false ->
        snd (fst (result (TIMIDITY_GetSome music data bytes done) w)) = music).
Proof.
  intros music data bytes done w.
  unfold same_resources, short_production.
  getsome_cases music data bytes w;
    repeat split; try reflexivity; try assumption;
    intros Hs; rewrite Bool.orb_false_r in Hs; apply Z.ltb_ge in Hs; lia.
Qed.


(** Replaces the comparisons of the decoder's yield by what is known. *)
Ltac settle_short :=
  repeat match goal with
         | H : ?a < ?b |- context [?a <? ?b] => rewrite (proj2 (Z.ltb_lt a b) H)
         | H : ?b <= ?a |- context [?a <? ?b] => rewrite (proj2 (Z.ltb_ge a b) H)
         end;
  cbn.

(** X2.  One pull moves the repeat count by at most one step, and only
    downwards: a count that is not negative stays so and drops by no more
    than the number of times the decoder came up short in the call, which
    is at most once; a negative count stays as it is or becomes -1. *)
Theorem GetSome_count_step :
  forall (music : TIMIDITY_Music) (data : Ptr) (bytes : Z) (done : bool) (w : W),
    0 <= short_count (calls (TIMIDITY_GetSome music data bytes done) w) <= 1
    /\ (0 <= play_count music ->
        0 <= play_count (snd (fst (result (TIMIDITY_GetSome music data bytes done) w)))
          <= play_count music
        /\ play_count music
           - play_count (snd (fst (result (TIMIDITY_GetSome music data bytes done) w)))
           <= short_count (calls (TIMIDITY_GetSome music data bytes done) w))
    /\ (play_count music < 0 ->
        play_count (snd (fst (result (TIMIDITY_GetSome music data bytes done) w)))
        = play_count music
        \/ play_count (snd (fst (result (TIMIDITY_GetSome music data bytes done) w)))
           = -1).
Proof.
  intros music data bytes done w. unfold short_count, is_short.
  getsome_cases music data bytes w; settle_short;
    repeat split; intros; try lia;
    destruct (amount <? buffer_size music); cbn; lia.
Qed.

(** X3.  Where a pull has samples written: the adapter is drained into the
    caller's buffer for at most the [bytes] asked for; the decoder writes
    either into the caller's buffer for [bytes] (no adapter) or into the
    session's own scratch buffer for its [buffer_size] (adapter), always
    for the session's song; only the scratch buffer is pushed into the
    adapter.  No other buffer and no larger size is ever passed on. *)
Theorem GetSome_writes_within_bounds :
  forall (music : TIMIDITY_Music) (data : Ptr) (bytes : Z) (done : bool) (w : W),
    Forall (write_within music data bytes)
           (calls (TIMIDITY_GetSome music data bytes done) w).
Proof.
  intros music data bytes done w.
  getsome_cases music data bytes w;
    repeat (apply Forall_cons; [cbn |]); try apply Forall_nil;
    repeat split; try assumption; try reflexivity;
    first [ left; repeat split; congruence
          | right; repeat split; congruence ].
Qed.

(** X4.  With an adapter, a pull that reaches the decoder never returns
    bytes itself.  The drain came first and gave 0; the decoder is asked
    for one scratch buffer; exactly what it produced is pushed into the
    adapter; the call returns 0 when the push succeeded and -1 when it
    failed, and in the latter case it stops there with the session
    untouched. *)
Theorem GetSome_adapter_defers_delivery :
  forall (music : TIMIDITY_Music) (data : Ptr) (bytes : Z) (done : bool) (w : W)
         (st : SDL_AudioStream),
    stream music = Some st ->
    decoder_invoked (calls (TIMIDITY_GetSome music data bytes done) w) = true ->
    exists (amount : Z) (ok : bool) (post : list Event),
      calls (TIMIDITY_GetSome music data bytes done) w
      = [Ev_SDL_GetAudioStreamData st data bytes 0;
         Ev_Timidity_PlaySome (song music) (buffer music) (buffer_size music) amount;
         Ev_SDL_PutAudioStreamData st (buffer music) amount ok] ++ post
      /\ fst (fst (result (TIMIDITY_GetSome music data bytes done) w))
         = (if ok then 0 else -1)
      /\ snd (result (TIMIDITY_GetSome music data bytes done) w) = done
      /\ (ok = false ->
          post = []
          /\ snd (fst (result (TIMIDITY_GetSome music data bytes done) w)) = music).
Proof.
  intros music data bytes done w st0 Hst0. unfold decoder_invoked.
  getsome_cases music data bytes w; intros Hdec; try discriminate Hdec;
    try congruence;
    assert (st0 = st) by congruence; subst st0; subst filled.
  - exists amount, true, []. repeat split; discriminate.
  - exists amount, true,
      [Ev_Timidity_Start (song music); Ev_Timidity_Seek (song music) 0].
    repeat split; discriminate.
  - exists amount, true,
      [Ev_Timidity_Start (song music); Ev_Timidity_Seek (song music) 0].
    repeat split; discriminate.
  - exists amount, true, []. repeat split; discriminate.
  - exists amount, false, []. repeat split.
Qed.

(** X5.  Without an adapter, a pull makes no audio-stream call at all.
    If the repeat count is not 0 the decoder writes straight into the
    caller's buffer, once, and the call returns exactly what the decoder
    reported, restart or not, leaving [*done] alone. *)
Theorem GetSome_direct_delivery :
  forall (music : TIMIDITY_Music) (data : Ptr) (bytes : Z) (done : bool) (w : W),
    stream music = None ->
    uses_stream (calls (TIMIDITY_GetSome music data bytes done) w) = false
    /\ (play_count music <> 0 ->
        fst (fst (result (TIMIDITY_GetSome music data bytes done) w))
        = fst (x_Timidity_PlaySome (song music) (Some data) bytes w)
        /\ snd (result (TIMIDITY_GetSome music data bytes done) w) = done
        /\ filter is_PlaySome (calls (TIMIDITY_GetSome music data bytes done) w)
           = [Ev_Timidity_PlaySome (song music) (Some data) bytes
                (fst (x_Timidity_PlaySome (song music) (Some data) bytes w))]).
Proof.
  intros music data bytes done w Hnone. unfold uses_stream.
  getsome_cases music data bytes w; try congruence;
    repeat split; intros; try contradiction; try reflexivity.
Qed.


(** ** Many pulls *)

(** A first pull, then the rest on what it leaves. *)
Lemma pulls_cons data bytes rest music done (w : W) :
  result (pulls ((data, bytes) :: rest) music done) w
  = (fst (fst (result (TIMIDITY_GetSome music data bytes done) w))
       :: fst (fst (result (pulls rest
                              (snd (fst (result (TIMIDITY_GetSome music data bytes done) w)))
                              (snd (result (TIMIDITY_GetSome music data bytes done) w)))
                           (final_world (TIMIDITY_GetSome music data bytes done) w))),
     snd (fst (result (pulls rest
                         (snd (fst (result (TIMIDITY_GetSome music data bytes done) w)))
                         (snd (result (TIMIDITY_GetSome music data bytes done) w)))
                      (final_world (TIMIDITY_GetSome music data bytes done) w))),
     snd (result (pulls rest
                    (snd (fst (result (TIMIDITY_GetSome music data bytes done) w)))
                    (snd (result (TIMIDITY_GetSome music data bytes done) w)))
                 (final_world (TIMIDITY_GetSome music data bytes done) w)))
  /\ calls (pulls ((data, bytes) :: rest) music done) w
     = calls (TIMIDITY_GetSome music data bytes done) w
         ++ calls (pulls rest
                     (snd (fst (result (TIMIDITY_GetSome music data bytes done) w)))
                     (snd (result (TIMIDITY_GetSome music data bytes done) w)))
                  (final_world (TIMIDITY_GetSome music data bytes done) w).
Proof.
  cbn [pulls].
  destruct (run_seq (TIMIDITY_GetSome music data bytes done)
              (fun r => tl <- pulls rest (snd (fst r)) (snd r) ;;
                        ret (fst (fst r) :: fst (fst tl), snd (fst tl), snd tl)) w)
    as (Hr & Hc & _).
  { intros r. apply appends_bind; [apply appends_pulls | intros tl; apply appends_ret]. }
  rewrite Hr, Hc. clear Hr Hc.
  set (r := result (TIMIDITY_GetSome music data bytes done) w).
  set (w1 := final_world (TIMIDITY_GetSome music data bytes done) w).
  destruct (run_seq (pulls rest (snd (fst r)) (snd r))
              (fun tl => ret (fst (fst r) :: fst (fst tl), snd (fst tl), snd tl)) w1)
    as (Hr & Hc & _).
  { intros tl. apply appends_ret. }
  rewrite Hr, Hc. unfold result, calls, run, ret. cbn.
  now rewrite app_nil_r.
Qed.

Lemma short_count_app (a b : list Event) :
  short_count (a ++ b) = short_count a + short_count b.
Proof.
  unfold short_count. rewrite filter_app, length_app. lia.
Qed.

(** What one pull does to the repeat count and to [*done], in the terms
    the many-pull properties need. *)
Lemma GetSome_one music data bytes done (w : W) :
  (play_count music = 0 ->
   snd (fst (result (TIMIDITY_GetSome music data bytes done) w)) = music
   /\ decoder_invoked (calls (TIMIDITY_GetSome music data bytes done) w) = false
   /\ restarted (calls (TIMIDITY_GetSome music data bytes done) w) = false)
  /\ (play_count music < 0 ->
      play_count (snd (fst (result (TIMIDITY_GetSome music data bytes done) w))) < 0)
  /\ (0 <= play_count music ->
      0 <= play_count (snd (fst (result (TIMIDITY_GetSome music data bytes done) w)))
        <= play_count music
      /\ play_count music
         - play_count (snd (fst (result (TIMIDITY_GetSome music data bytes done) w)))
         <= short_count (calls (TIMIDITY_GetSome music data bytes done) w))
  /\ (play_count music <> 0 ->
      snd (result (TIMIDITY_GetSome music data bytes done) w) = done)
  /\ (done = true -> snd (result (TIMIDITY_GetSome music data bytes done) w) = true).
Proof.
  unfold short_count, is_short, decoder_invoked, restarted.
  getsome_cases music data bytes w; settle_short;
    repeat split; intros; try lia; try reflexivity; try assumption;
    try contradiction;
    destruct (amount <? buffer_size music); cbn; lia.
Qed.


(** Takes the first pull off a sequence of pulls, naming what it yields. *)
Ltac first_pull rest music data bytes done w :=
  destruct (pulls_cons data bytes rest music done w) as [Hres Hcalls];
  rewrite ?Hres, ?Hcalls; clear Hres Hcalls;
  pose proof (GetSome_one music data bytes done w) as (Hstop & Hneg & Hpos & Hdone & Hkeep);
  set (r1 := result (TIMIDITY_GetSome music data bytes done) w) in *;
  set (w1 := final_world (TIMIDITY_GetSome music data bytes done) w) in *;
  set (tr1 := calls (TIMIDITY_GetSome music data bytes done) w) in *;
  cbn [fst snd].

(** A stopped session under more pulls. *)
Lemma pulls_at_zero (reqs : list (Ptr * Z)) :
  forall (music : TIMIDITY_Music) (done : bool) (w : W),
    play_count music = 0 ->
    snd (fst (result (pulls reqs music done) w)) = music
    /\ decoder_invoked (calls (pulls reqs music done) w) = false
    /\ restarted (calls (pulls reqs music done) w) = false.
Proof.
  induction reqs as [| [data bytes] rest IH]; intros music done w Hpc.
  - repeat split.
  - first_pull rest music data bytes done w.
    destruct (Hstop Hpc) as (Hm & Hd & Hr).
    rewrite Hm.
    destruct (IH music (snd r1) w1 Hpc) as (IHm & IHd & IHr).
    unfold decoder_invoked, restarted in *.
    rewrite !existsb_app, Hd, Hr, IHd, IHr. repeat split. exact IHm.
Qed.

(** [*done], once set, stays set. *)
Lemma pulls_keep_done (reqs : list (Ptr * Z)) :
  forall (music : TIMIDITY_Music) (w : W),
    snd (result (pulls reqs music true) w) = true.
Proof.
  induction reqs as [| [data bytes] rest IH]; intros music w.
  - reflexivity.
  - first_pull rest music data bytes true w.
    rewrite (Hkeep eq_refl). apply IH.
Qed.

(** A stopped session without adapter: the pull is over at once. *)
Lemma GetSome_stopped_direct music data bytes done (w : W) :
  stream music = None -> play_count music = 0 ->
  run (TIMIDITY_GetSome music data bytes done) w = ((0, music, true), mkState w []).
Proof.
  intros Hst Hpc. unfold run, TIMIDITY_GetSome, GetSome_decode.
  rewrite Hst, Hpc. reflexivity.
Qed.

(** X6.  A repeat count of 0 is final as far as pulling goes: however
    many pulls follow, with whatever buffers, the session stays exactly as
    it is, the decoder is never asked for samples and the song is never
    restarted; only [TIMIDITY_Play] gets a session going again.  Without an
    adapter such pulls make no external call at all, each returns 0, and
    [*done] is set from the first one on. *)
Theorem pulls_stopped_stays_stopped :
  forall (reqs : list (Ptr * Z)) (music : TIMIDITY_Music) (done : bool) (w : W),
    play_count music = 0 ->
    snd (fst (result (pulls reqs music done) w)) = music
    /\ decoder_invoked (calls (pulls reqs music done) w) = false
    /\ restarted (calls (pulls reqs music done) w) = false
    /\ (stream music = None ->
        calls (pulls reqs music done) w = []
        /\ Forall (fun n => n = 0) (fst (fst (result (pulls reqs music done) w)))
        /\ (reqs <> [] -> snd (result (pulls reqs music done) w) = true)).
Proof.
  induction reqs as [| [data bytes] rest IH]; intros music done w Hpc.
  - split; [reflexivity |]. split; [reflexivity |]. split; [reflexivity |].
    intros _. split; [reflexivity |]. split; [constructor |].
    intros Hne. now contradiction Hne.
  - first_pull rest music data bytes done w.
    destruct (Hstop Hpc) as (Hm & Hd & Hr).
    rewrite Hm.
    destruct (IH music (snd r1) w1 Hpc) as (IHm & IHd & IHr & IHdirect).
    unfold decoder_invoked, restarted in *.
    rewrite !existsb_app, Hd, Hr, IHd, IHr.
    split; [exact IHm |]. split; [reflexivity |]. split; [reflexivity |].
    intros Hnone. destruct (IHdirect Hnone) as (IHcalls & IHzero & _).
    pose proof (GetSome_stopped_direct music data bytes done w Hnone Hpc) as Hrun.
    assert (Hr1 : r1 = (0, music, true)) by (subst r1; unfold result; now rewrite Hrun).
    assert (Htr1 : tr1 = []) by (subst tr1; unfold calls; now rewrite Hrun).
    rewrite Htr1, IHcalls. split; [reflexivity |].
    split.
    + constructor; [now rewrite Hr1 | exact IHzero].
    + intros _. rewrite Hr1. cbn. apply pulls_keep_done.
Qed.

(** X7.  A negative repeat count loops for ever: however many pulls are
    made, the count is still negative afterwards and [*done] is what the
    caller started with, so a caller that starts with [false] is never
    told the song is over. *)
Theorem pulls_infinite_never_done :
  forall (reqs : list (Ptr * Z)) (music : TIMIDITY_Music) (done : bool) (w : W),
    play_count music < 0 ->
    play_count (snd (fst (result (pulls reqs music done) w))) < 0
    /\ snd (result (pulls reqs music done) w) = done.
Proof.
  induction reqs as [| [data bytes] rest IH]; intros music done w Hpc.
  - split; [exact Hpc | reflexivity].
  - first_pull rest music data bytes done w.
    specialize (Hneg Hpc).
    assert (Hd1 : snd r1 = done) by (apply Hdone; lia).
    destruct (IH (snd (fst r1)) (snd r1) w1 Hneg) as [IHc IHd].
    split; [exact IHc | now rewrite IHd].
Qed.

(** The count of a stopped session after more pulls. *)
Lemma pulls_stopped_count (reqs : list (Ptr * Z)) :
  forall (music : TIMIDITY_Music) (done : bool) (w : W),
    play_count music = 0 ->
    play_count (snd (fst (result (pulls reqs music done) w))) = 0.
Proof.
  induction reqs as [| [data bytes] rest IH]; intros music done w Hpc.
  - exact Hpc.
  - first_pull rest music data bytes done w.
    destruct (Hstop Hpc) as (Hm & _). rewrite Hm. now apply IH.
Qed.

(** X8.  A repeat count of [n >= 0] is used up one short production at a
    time.  After any number of pulls the count lies between 0 and [n] and
    has dropped by no more than the number of times the decoder came up
    short; and if [*done] went from [false] to [true] on the way, the count
    is 0 and the decoder came up short at least [n] times: the end is
    never reported before the song has been played to its end [n] times. *)
Theorem pulls_finite_count :
  forall (reqs : list (Ptr * Z)) (music : TIMIDITY_Music) (done : bool) (w : W),
    0 <= play_count music ->
    0 <= play_count (snd (fst (result (pulls reqs music done) w))) <= play_count music
    /\ play_count music - play_count (snd (fst (result (pulls reqs music done) w)))
       <= short_count (calls (pulls reqs music done) w)
    /\ (done = false ->
        snd (result (pulls reqs music done) w) = true ->
        play_count (snd (fst (result (pulls reqs music done) w))) = 0
        /\ play_count music <= short_count (calls (pulls reqs music done) w)).
Proof.
  induction reqs as [| [data bytes] rest IH]; intros music done w Hpc.
  - cbn. unfold short_count. cbn.
    split; [lia |]. split; [lia |]. intros Hd Hd'. congruence.
  - first_pull rest music data bytes done w.
    destruct (Hpos Hpc) as [Hrange Hdrop].
    destruct (IH (snd (fst r1)) (snd r1) w1 ltac:(lia)) as (IHrange & IHdrop & IHdone).
    rewrite short_count_app.
    assert (Hend : done = false ->
                   snd (result (pulls rest (snd (fst r1)) (snd r1)) w1) = true ->
                   play_count (snd (fst (result (pulls rest (snd (fst r1)) (snd r1)) w1))) = 0).
    { intros Hd Hd'.
      destruct (Z.eq_dec (play_count music) 0) as [Hz | Hnz].
      - destruct (Hstop Hz) as (Hm & _). rewrite Hm.
        now apply pulls_stopped_count.
      - apply IHdone; [| exact Hd']. rewrite (Hdone Hnz). exact Hd. }
    split; [lia |]. split; [lia |].
    intros Hd Hd'. specialize (Hend Hd Hd'). split; [exact Hend | lia].
Qed.


(** ** The life of a session *)

Lemma do_op_keeps music op (w : W) :
  same_resources (result (do_op music op) w) music
  /\ allocates (calls (do_op music op) w) = false
  /\ releases_any (calls (do_op music op) w) = false.
Proof.
  unfold same_resources, allocates, releases_any.
  destruct op as [v | | n | | data bytes done | position |]; unfold do_op, TIMIDITY_IsPlaying,
    Timidity_IsActive, TIMIDITY_GetVolume;
    try (unfold_codec; cbn; repeat split; reflexivity).
  getsome_cases music data bytes w; repeat split; try reflexivity; assumption.
Qed.

(** Calls that neither hand out nor take back a resource leave the
    holdings as they are. *)
Lemma outstanding_from_inert (tr : list Event) :
  forall held,
    allocates tr = false -> releases_any tr = false ->
    outstanding_from held tr = held.
Proof.
  unfold allocates, releases_any.
  induction tr as [| e tr IH]; intros held Ha Hr; [reflexivity |].
  cbn in Ha, Hr. apply Bool.orb_false_iff in Ha, Hr.
  destruct Ha as [Ha1 Ha2], Hr as [Hr1 Hr2].
  cbn [outstanding_from].
  destruct e; cbn in *; try discriminate; now apply IH.
Qed.

Lemma outstanding_from_app (a b : list Event) :
  forall held, outstanding_from held (a ++ b) = outstanding_from (outstanding_from held a) b.
Proof.
  induction a as [| e a IH]; intros held; [reflexivity |].
  cbn [app outstanding_from]. apply IH.
Qed.

Lemma drive_keeps (ops : list Op) :
  forall (music : TIMIDITY_Music) (w : W),
    same_resources (result (drive music ops) w) music
    /\ allocates (calls (drive music ops) w) = false
    /\ releases_any (calls (drive music ops) w) = false.
Proof.
  induction ops as [| op rest IH]; intros music w.
  - unfold same_resources. repeat split.
  - cbn [drive].
    destruct (run_seq (do_op music op) (fun m => drive m rest) w) as (Hr & Hc & _).
    { intros m. apply appends_drive. }
    rewrite Hr, Hc.
    destruct (do_op_keeps music op w) as ((S1 & S2 & S3 & S4) & Ha & Hrel).
    destruct (IH (result (do_op music op) w) (final_world (do_op music op) w))
      as ((T1 & T2 & T3 & T4) & IHa & IHrel).
    unfold same_resources, allocates, releases_any in *.
    rewrite !existsb_app, Ha, Hrel, IHa, IHrel.
    repeat split; congruence.
Qed.

(** X9.  Whatever is done with a live session (volume, play, stop, seek,
    queries, pulls, in any order and number), its song, adapter, scratch
    buffer and buffer size stay the ones it was built with, and no call
    made on the way allocates or releases anything.  In particular a
    session that has a scratch buffer exactly when it has an adapter keeps
    that property for life. *)
Theorem session_resources_fixed :
  forall (ops : list Op) (music : TIMIDITY_Music) (w : W),
    same_resources (result (drive music ops) w) music
    /\ allocates (calls (drive music ops) w) = false
    /\ releases_any (calls (drive music ops) w) = false
    /\ ((buffer music <> None <-> stream music <> None) ->
        (buffer (result (drive music ops) w) <> None
         <-> stream (result (drive music ops) w) <> None)).
Proof.
  intros ops music w.
  destruct (drive_keeps ops music w) as ((S1 & S2 & S3 & S4) & Ha & Hr).
  split; [unfold same_resources; auto |].
  split; [exact Ha |]. split; [exact Hr |].
  rewrite S2, S3. auto.
Qed.

(** X10.  Create, use, delete: a session that was built, then driven
    through any sequence of operations, then deleted, has given back
    every resource the construction acquired. *)
Theorem session_life_leaks_nothing :
  forall (pf : Platform) (music_spec : SDL_AudioSpec) (MIX_MAX_VOLUME : Z)
         (src : SDL_IOStream) (closeio : bool) (w : W)
         (context : Ptr) (music : TIMIDITY_Music)
         (ops : list Op) (w' w'' : W),
    result (TIMIDITY_CreateFromIO pf music_spec MIX_MAX_VOLUME src closeio) w
    = Some (context, music) ->
    outstanding
      (calls (TIMIDITY_CreateFromIO pf music_spec MIX_MAX_VOLUME src closeio) w
         ++ calls (drive music ops) w'
         ++ calls (TIMIDITY_Delete context (result (drive music ops) w')) w'')
    = [].
Proof.
  intros pf music_spec MAX src closeio w context music ops w' w'' Hcreate.
  unfold outstanding. rewrite !outstanding_from_app.
  pose proof (CreateFromIO_success_owns pf music_spec MAX src closeio w context music Hcreate)
    as Howned.
  unfold outstanding in Howned. rewrite Howned.
  destruct (drive_keeps ops music w') as ((S1 & S2 & S3 & S4) & Ha & Hr).
  rewrite (outstanding_from_inert _ _ Ha Hr).
  replace (owned_by context music)
    with (owned_by context (result (drive music ops) w'))
    by (unfold owned_by; now rewrite S1, S2, S3).
  apply TIMIDITY_Delete_releases_all.
Qed.


(** ** More on construction *)

(** X11.  What a construction attempt asks for.  The decoder is handed
    [src] and a format that is the mixer's with the channel count cut to 2
    when it is larger (same sample format, same rate, never more than two
    channels); an adapter and a scratch buffer are only ever asked for when
    the mixer has more than two channels, and the adapter then converts
    from the decoder's format to the mixer's. *)
Theorem CreateFromIO_requests :
  forall (pf : Platform) (music_spec : SDL_AudioSpec) (MIX_MAX_VOLUME : Z)
         (src : SDL_IOStream) (closeio : bool) (w : W),
    Forall (create_call_ok music_spec src)
           (calls (TIMIDITY_CreateFromIO pf music_spec MIX_MAX_VOLUME src closeio) w)
    /\ channels (local_spec music_spec) <= 2
    /\ format (local_spec music_spec) = format music_spec
    /\ freq (local_spec music_spec) = freq music_spec
    /\ (channels music_spec <= 2 -> local_spec music_spec = music_spec).
Proof.
  intros pf music_spec MAX src closeio w.
  split.
  - unfold create_call_ok.
    create_cases music_spec; try (destruct closeio; cbn);
      repeat (apply Forall_cons; [cbn |]); try apply Forall_nil;
      repeat split; try reflexivity; apply Z.gtb_lt in Hneed; lia.
  - unfold local_spec, need_stream.
    destruct (Z.gtb_spec (channels music_spec) 2); cbn; repeat split; try lia.
Qed.

(** X12.  Without [closeio] the input stream is never closed by the
    construction, whether it succeeds or fails. *)
Theorem CreateFromIO_keeps_io_open :
  forall (pf : Platform) (music_spec : SDL_AudioSpec) (MIX_MAX_VOLUME : Z)
         (src : SDL_IOStream) (w : W),
    io_closed (calls (TIMIDITY_CreateFromIO pf music_spec MIX_MAX_VOLUME src false) w)
    = false
    /\ result (TIMIDITY_CreateFromIO pf music_spec MIX_MAX_VOLUME src false) w
       = result (TIMIDITY_CreateFromIO pf music_spec MIX_MAX_VOLUME src true) w.
Proof.
  intros pf music_spec MAX src w. unfold io_closed.
  create_cases music_spec; split; reflexivity.
Qed.

(** X13.  A session comes out of construction stopped: its repeat count
    is 0 and its volume is [MIX_MAX_VOLUME].  Until [TIMIDITY_Play] is
    called no pull asks the decoder for anything, and without an adapter
    the very first pull reports done with 0 bytes. *)
Theorem fresh_session_is_stopped :
  forall (pf : Platform) (music_spec : SDL_AudioSpec) (MIX_MAX_VOLUME : Z)
         (src : SDL_IOStream) (closeio : bool) (w : W)
         (context : Ptr) (music : TIMIDITY_Music),
    result (TIMIDITY_CreateFromIO pf music_spec MIX_MAX_VOLUME src closeio) w
    = Some (context, music) ->
    play_count music = 0
    /\ volume music = MIX_MAX_VOLUME
    /\ (forall (reqs : list (Ptr * Z)) (done : bool) (w' : W),
           decoder_invoked (calls (pulls reqs music done) w') = false
           /\ snd (fst (result (pulls reqs music done) w')) = music)
    /\ (channels music_spec <= 2 ->
        forall (data : Ptr) (bytes : Z) (done : bool) (w' : W),
          result (TIMIDITY_GetSome music data bytes done) w' = (0, music, true)).
Proof.
  intros pf music_spec MAX src closeio w context music Hcreate.
  assert (Hfresh : play_count music = 0 /\ volume music = MAX
                   /\ (channels music_spec <= 2 -> stream music = None)).
  { revert Hcreate. create_cases music_spec;
      try (destruct closeio; cbn); intros H; try discriminate H;
      injection H as <- <-; repeat split;
      intros; apply Z.gtb_lt in Hneed; lia. }
  destruct Hfresh as (Hpc & Hvol & Hnone).
  split; [exact Hpc |]. split; [exact Hvol |]. split.
  - intros reqs done w'.
    destruct (pulls_at_zero reqs music done w' Hpc) as (Hm & Hd & _).
    split; assumption.
  - intros Hch data bytes done w'. unfold result.
    now rewrite (GetSome_stopped_direct music data bytes done w' (Hnone Hch) Hpc).
Qed.

(** X14.  The scratch buffer is as large as the session says.  In a
    session built with an adapter, on a platform whose [size_t] has at
    least 18 bits, the one [SDL_malloc] of the construction asked for
    exactly [buffer_size] bytes and returned the session's buffer; that
    size lies between 0 and 253952 (4096 frames of at most 31 bytes on 2
    channels). *)
Theorem CreateFromIO_scratch_allocation :
  forall (pf : Platform) (music_spec : SDL_AudioSpec) (MIX_MAX_VOLUME : Z)
         (src : SDL_IOStream) (closeio : bool) (w : W)
         (context : Ptr) (music : TIMIDITY_Music),
    18 <= size_t_bits pf ->
    result (TIMIDITY_CreateFromIO pf music_spec MIX_MAX_VOLUME src closeio) w
    = Some (context, music) ->
    stream music <> None ->
    0 <= buffer_size music <= 253952
    /\ filter (fun e => match e with Ev_SDL_malloc _ _ => true | _ => false end)
              (calls (TIMIDITY_CreateFromIO pf music_spec MIX_MAX_VOLUME src closeio) w)
       = [Ev_SDL_malloc (buffer_size music) (buffer music)].
Proof.
  intros pf music_spec MAX src closeio w context music Hbits.
  pose proof (scratch_size_stereo (set_channels music_spec 2) eq_refl) as Hsz.
  pose proof (SDL_AUDIO_BITSIZE_range (format (set_channels music_spec 2))) as Hr.
  assert (Hq : 0 <= SDL_AUDIO_BITSIZE (format (set_channels music_spec 2)) / 8 <= 31).
  { split; [apply Z.div_pos; lia |].
    enough (SDL_AUDIO_BITSIZE (format (set_channels music_spec 2)) / 8 < 32) by lia.
    apply Z.div_lt_upper_bound; lia. }
  assert (Hfit : to_size_t pf (scratch_size (set_channels music_spec 2))
                 = scratch_size (set_channels music_spec 2)).
  { unfold to_size_t. apply Z.mod_small. rewrite Hsz.
    assert (2 ^ 18 <= 2 ^ size_t_bits pf) by (apply Z.pow_le_mono_r; lia).
    change (2 ^ 18) with 262144 in *. lia. }
  create_cases music_spec; try (destruct closeio; cbn);
    intros H; try discriminate H; injection H as <- <-; cbn;
    intros Hst; try (now contradiction Hst);
    rewrite Hfit; (split; [rewrite Hsz; lia | reflexivity]).
Qed.

(** X15.  Construction stops at the first allocation that fails: nothing
    further is attempted, every call after the failure is a release. *)
Theorem CreateFromIO_stops_at_first_failure :
  forall (pf : Platform) (music_spec : SDL_AudioSpec) (MIX_MAX_VOLUME : Z)
         (src : SDL_IOStream) (closeio : bool) (w : W),
    stops_at_failure
      (calls (TIMIDITY_CreateFromIO pf music_spec MIX_MAX_VOLUME src closeio) w) = true
    /\ (List.length
          (filter alloc_failed
             (calls (TIMIDITY_CreateFromIO pf music_spec MIX_MAX_VOLUME src closeio) w))
        <= 1)%nat.
Proof.
  intros pf music_spec MAX src closeio w.
  create_cases music_spec; try (destruct closeio; cbn); split; try reflexivity; lia.
Qed.


(** ** Volume, end to end *)

Lemma last_cons_default {A} (v : A) (l : list A) (d : A) :
  last (v :: l) d = last l v.
Proof.
  revert v d. induction l as [| x l IH]; intros v d; [reflexivity |].
  change (last (v :: x :: l) d) with (last (x :: l) d).
  rewrite IH. symmetry. apply IH.
Qed.

(** X16.  Volume round trip.  After any sequence of SetVolume/GetVolume
    operations the session's volume is the last level set (any integer, as
    given), or the starting volume if none was set, and nothing else in the
    session has changed; each GetVolume read the level in force at that
    point; and the decoder was told every level set, in order, through
    [Timidity_SetVolume] on the session's song, and nothing else. *)
Theorem volume_ops_round_trip :
  forall (ops : list VolumeOp) (music : TIMIDITY_Music) (w : W),
    fst (result (volume_ops music ops) w)
    = set_volume music (last (levels_set ops) (volume music))
    /\ snd (result (volume_ops music ops) w) = levels_read (volume music) ops
    /\ calls (volume_ops music ops) w
       = map (Ev_Timidity_SetVolume (song music)) (levels_set ops).
Proof.
  intros ops music w. unfold result, calls, run.
  change (map (Ev_Timidity_SetVolume (song music)) (levels_set ops))
    with (trace (mkState w []) ++ map (Ev_Timidity_SetVolume (song music)) (levels_set ops)).
  generalize (mkState w []) as s. revert music.
  induction ops as [| [v |] rest IH]; intros music s.
  - cbn. rewrite app_nil_r. destruct music. repeat split.
  - cbn [volume_ops]. rewrite run_bind, TIMIDITY_SetVolume_run. cbn [fst snd].
    destruct (IH (set_volume music v)
                 (mkState (x_Timidity_SetVolume (song music) v (world s))
                          (trace s ++ [Ev_Timidity_SetVolume (song music) v])))
      as (H1 & H2 & H3).
    rewrite H1, H2, H3. cbn [levels_set flat_map app map levels_read].
    rewrite last_cons_default. cbn.
    rewrite <- app_assoc. repeat split.
  - cbn [volume_ops]. rewrite run_bind. unfold ret. cbn [fst snd].
    destruct (IH music s) as (H1 & H2 & H3).
    rewrite H1, H2, H3. repeat split.
Qed.

(** ** More on backend initialization *)

(** X17.  The environment variable wins.  When [TIMIDITY_CFG] is set in
    the environment, [TIMIDITY_Open] does not even ask the mixer for a
    registered path: it makes two calls, the lookup and one
    [Timidity_Init] on the variable's value, and returns what that says.
    In general it tries at least one and at most three configurations (two
    on Windows), and whatever the format it is passed, it does the same. *)
Theorem TIMIDITY_Open_env_first :
  forall (pf : Platform) (spec : SDL_AudioSpec) (w : W),
    (forall c, x_SDL_getenv "TIMIDITY_CFG" w = Some c ->
               calls (TIMIDITY_Open pf spec) w
               = [Ev_SDL_getenv "TIMIDITY_CFG" (Some c);
                  Ev_Timidity_Init (Some c) (fst (x_Timidity_Init (Some c) w))]
               /\ result (TIMIDITY_Open pf spec) w = fst (x_Timidity_Init (Some c) w))
    /\ (1 <= List.length (init_cfgs (calls (TIMIDITY_Open pf spec) w))
        <= if SDL_PLATFORM_WIN32 pf then 2 else 3)%nat
    /\ (forall spec', run (TIMIDITY_Open pf spec') w = run (TIMIDITY_Open pf spec) w).
Proof.
  intros pf spec w.
  split; [| split; [| reflexivity]].
  - intros c Henv.
    unfold result, calls, run, TIMIDITY_Open, SDL_getenv, Timidity_Init,
      bind, ret, call, call_pure. cbn. rewrite Henv. cbn.
    destruct (x_Timidity_Init (Some c) w) as [rc w1]. cbn. split; reflexivity.
  - unfold result, calls, run, TIMIDITY_Open, init_if_defined,
      TIMIDITY_CFG, TIMIDITY_CFG_ETC, TIMIDITY_CFG_FREEPATS,
      SDL_getenv, Mix_GetTimidityCfg, Timidity_Init,
      bind, ret, call, call_pure.
    cbn.
    destruct (x_SDL_getenv "TIMIDITY_CFG" w) as [c |]; cbn.
    { destruct (x_Timidity_Init (Some c) w) as [rc w1]; cbn.
      destruct (SDL_PLATFORM_WIN32 pf); lia. }
    destruct (x_Mix_GetTimidityCfg w) as [c |]; cbn.
    { destruct (x_Timidity_Init (Some c) w) as [rc w1]; cbn.
      destruct (SDL_PLATFORM_WIN32 pf); lia. }
    destruct (SDL_PLATFORM_WIN32 pf); cbn.
    + destruct (x_Timidity_Init _ w) as [rc1 w1]; cbn. sign rc1; try lia.
      destruct (x_Timidity_Init _ w1) as [rc2 w2]; cbn. lia.
    + destruct (x_Timidity_Init _ w) as [rc1 w1]; cbn. sign rc1; try lia.
      destruct (x_Timidity_Init _ w1) as [rc2 w2]; cbn. sign rc2; try lia.
      destruct (x_Timidity_Init _ w2) as [rc3 w3]; cbn. lia.
Qed.


(** ** Errors and effort of one pull *)

(** X18.  A pull only fails when something outside it did.  A negative
    return is either the negative count of the drain or, without adapter,
    of the decoder, handed through as it is, or it is -1 after a failed
    push into the adapter.  The restart at the end of the song never makes
    a pull fail. *)
Theorem GetSome_error_sources :
  forall (music : TIMIDITY_Music) (data : Ptr) (bytes : Z) (done : bool) (w : W),
    fst (fst (result (TIMIDITY_GetSome music data bytes done) w)) < 0 ->
    existsb (reports_negative music
               (fst (fst (result (TIMIDITY_GetSome music data bytes done) w))))
            (calls (TIMIDITY_GetSome music data bytes done) w) = true
    \/ (push_failed (calls (TIMIDITY_GetSome music data bytes done) w) = true
        /\ fst (fst (result (TIMIDITY_GetSome music data bytes done) w)) = -1).
Proof.
  intros music data bytes done w. unfold push_failed, reports_negative.
  getsome_cases music data bytes w; intros Hneg; try lia;
    try (right; split; reflexivity);
    left; rewrite ?Hst; rewrite Z.eqb_refl; cbn;
    rewrite (proj2 (Z.ltb_lt _ _) Hneg); reflexivity.
Qed.

(** X19.  [TIMIDITY_Play] arms the pull protocol by its count alone.
    After [TIMIDITY_Play] with a non-zero count the next pull does not
    signal done; after [TIMIDITY_Play] with count 0 the song is started and
    rewound all the same, but the session is stopped: the next pull asks
    the decoder for nothing and leaves the session as it is. *)
Theorem Play_then_pull :
  forall (music : TIMIDITY_Music) (n : Z) (w : W)
         (data : Ptr) (bytes : Z) (done : bool) (w' : W),
    (n <> 0 ->
     snd (result (TIMIDITY_GetSome (snd (result (TIMIDITY_Play music n) w))
                                   data bytes done) w') = done)
    /\ (n = 0 ->
        restarted (calls (TIMIDITY_Play music n) w) = true
        /\ decoder_invoked
             (calls (TIMIDITY_GetSome (snd (result (TIMIDITY_Play music n) w))
                                      data bytes done) w') = false
        /\ snd (fst (result (TIMIDITY_GetSome (snd (result (TIMIDITY_Play music n) w))
                                              data bytes done) w'))
           = snd (result (TIMIDITY_Play music n) w)).
Proof.
  intros music n w data bytes done w'.
  assert (E : snd (result (TIMIDITY_Play music n) w) = set_play_count music n).
  { unfold result, run. now rewrite TIMIDITY_Play_run. }
  rewrite E.
  pose proof (GetSome_one (set_play_count music n) data bytes done w')
    as (Hstop & _ & _ & Hdone & _).
  split.
  - intros Hn. apply Hdone. exact Hn.
  - intros Hn. split.
    + unfold calls, run. rewrite TIMIDITY_Play_run. reflexivity.
    + destruct (Hstop Hn) as (Hm & Hd & _). split; assumption.
Qed.

(** X20.  One pull is a bounded piece of work: at most one drain, one
    request to the decoder, one push and one restart, five external calls
    in all, and no allocation or release.  With a non-zero repeat count and
    nothing drained (no adapter, or a drain of 0) the decoder is asked
    exactly once, whether or not the song has been stopped meanwhile. *)
Theorem GetSome_bounded_work :
  forall (music : TIMIDITY_Music) (data : Ptr) (bytes : Z) (done : bool) (w : W),
    (List.length (filter is_drain (calls (TIMIDITY_GetSome music data bytes done) w)) <= 1
     /\ List.length (filter is_PlaySome (calls (TIMIDITY_GetSome music data bytes done) w)) <= 1
     /\ List.length (filter is_push (calls (TIMIDITY_GetSome music data bytes done) w)) <= 1
     /\ List.length (filter is_Start (calls (TIMIDITY_GetSome music data bytes done) w)) <= 1
     /\ List.length (calls (TIMIDITY_GetSome music data bytes done) w) <= 5)%nat
    /\ allocates (calls (TIMIDITY_GetSome music data bytes done) w) = false
    /\ releases_any (calls (TIMIDITY_GetSome music data bytes done) w) = false
    /\ (play_count music <> 0 ->
        (forall st, stream music = Some st ->
                    fst (x_SDL_GetAudioStreamData st data bytes w) = 0) ->
        List.length (filter is_PlaySome (calls (TIMIDITY_GetSome music data bytes done) w))
        = 1%nat).
Proof.
  intros music data bytes done w. unfold allocates, releases_any.
  getsome_cases music data bytes w;
    (split; [repeat split; lia |]); (split; [reflexivity |]); (split; [reflexivity |]);
    intros Hpc Hdrain; try reflexivity; try contradiction;
    specialize (Hdrain st eq_refl); rewrite Hget in Hdrain; cbn in Hdrain; contradiction.
Qed.


End Properties.

(** * The codec on concrete inputs *)

Import Scripted.

(** C1 at work: an adapter holding 512 bytes, a caller asking for 4096. *)
Lemma GetSome_drain_before_decode_witness :
  result (TIMIDITY_GetSome (with_adapter 2) 1000 4096 false) buffered
  = (512, with_adapter 2, false)
  /\ calls (TIMIDITY_GetSome (with_adapter 2) 1000 4096 false) buffered
     = [Ev_SDL_GetAudioStreamData 5 1000 4096 512]
  /\ decoder_invoked (calls (TIMIDITY_GetSome (with_adapter 2) 1000 4096 false) buffered)
     = false.
Proof.
  assert (Hdrain : fst (x_SDL_GetAudioStreamData 5 1000 4096 buffered) <> 0)
    by (vm_compute; discriminate).
  exact (GetSome_drain_before_decode (with_adapter 2) 1000 4096 false buffered 5
           eq_refl Hdrain).
Defined.

(** C2 at work: a stopped session whose adapter has run dry. *)
Lemma GetSome_done_when_exhausted_witness :
  result (TIMIDITY_GetSome (with_adapter 0) 1000 4096 false) quiet
  = (0, with_adapter 0, true)
  /\ decoder_invoked (calls (TIMIDITY_GetSome (with_adapter 0) 1000 4096 false) quiet)
     = false.
Proof.
  destruct (GetSome_done_when_exhausted (with_adapter 0) 1000 4096 false quiet)
    as [H _].
  apply H.
  - reflexivity.
  - intros st Hst. reflexivity.
Defined.

(** C3 as stated fails where the push into the adapter fails: the decoder
    gave 8192 of the 16384 bytes asked for, yet a repeat count of 1 is
    still 1 after the call and a repeat count of 3 is still 3, with no
    restart; the call returns -1. *)
Lemma GetSome_short_production_push_failure :
  calls (TIMIDITY_GetSome (with_adapter 1) 1000 4096 false) push_fails
  = [Ev_SDL_GetAudioStreamData 5 1000 4096 0;
     Ev_Timidity_PlaySome (Some 7) (Some 9) 16384 8192;
     Ev_SDL_PutAudioStreamData 5 (Some 9) 8192 false]
  /\ short_production (calls (TIMIDITY_GetSome (with_adapter 1) 1000 4096 false) push_fails)
     = true
  /\ result (TIMIDITY_GetSome (with_adapter 1) 1000 4096 false) push_fails
     = (-1, with_adapter 1, false)
  /\ play_count (snd (fst (result (TIMIDITY_GetSome (with_adapter 1) 1000 4096 false)
                                  push_fails))) <> 0
  /\ result (TIMIDITY_GetSome (with_adapter 3) 1000 4096 false) push_fails
     = (-1, with_adapter 3, false)
  /\ restarted (calls (TIMIDITY_GetSome (with_adapter 3) 1000 4096 false) push_fails)
     = false.
Proof. vm_compute. repeat split; discriminate. Qed.

(** C3 at work: the song ends with two more rounds to go. *)
Lemma GetSome_short_production_witness :
  snd (fst (result (TIMIDITY_GetSome (with_adapter 3) 1000 4096 false) quiet))
  = set_play_count (with_adapter 3) 2
  /\ allocates (calls (TIMIDITY_GetSome (with_adapter 3) 1000 4096 false) quiet) = false.
Proof.
  destruct (GetSome_short_production (with_adapter 3) 1000 4096 false quiet)
    as (_ & Hmany & _ & Hnoalloc).
  - vm_compute. reflexivity.
  - vm_compute. reflexivity.
  - split; [| exact Hnoalloc].
    apply Hmany. reflexivity.
Defined.

(** C5 at work: a six-channel mixer, 16-bit samples. *)
Lemma CreateFromIO_adapter_iff_scratch_witness :
  (stream (with_adapter 0) <> None <-> channels surround > 2)
  /\ (buffer (with_adapter 0) <> None <-> stream (with_adapter 0) <> None)
  /\ (stream (with_adapter 0) <> None ->
      channels (local_spec surround) = 2
      /\ buffer_size (with_adapter 0)
         = 4096 * (SDL_AUDIO_BITSIZE (format (local_spec surround)) / 8)
           * channels (local_spec surround))
  /\ (stream (with_adapter 0) = None -> buffer_size (with_adapter 0) = 0).
Proof.
  exact (CreateFromIO_adapter_iff_scratch unix64 surround 128 33 true quiet 100
           (with_adapter 0) eq_refl).
Defined.

(** C6 at work: the scratch buffer cannot be allocated. *)
Lemma CreateFromIO_failure_tears_down_witness :
  result (TIMIDITY_CreateFromIO unix64 surround 128 33 true) no_scratch = None
  /\ outstanding (calls (TIMIDITY_CreateFromIO unix64 surround 128 33 true) no_scratch)
     = [].
Proof.
  destruct (CreateFromIO_failure_tears_down unix64 surround 128 33 true no_scratch)
    as [H _].
  apply H. vm_compute. reflexivity.
Defined.

(** C8 as stated fails: a session with three rounds to go still has three
    rounds to go after [TIMIDITY_Stop]; its repeat count is not 0. *)
Lemma TIMIDITY_Stop_count_not_zero :
  play_count (with_adapter 3) = 3
  /\ play_count (result (TIMIDITY_Stop (with_adapter 3)) quiet) = 3
  /\ play_count (result (TIMIDITY_Stop (with_adapter 3)) quiet) <> 0.
Proof. vm_compute. repeat split; discriminate. Qed.

(** C8 at work: stopped while playing, not reported done. *)
Lemma TIMIDITY_Stop_keeps_repeat_count_witness :
  snd (result (TIMIDITY_GetSome (result (TIMIDITY_Stop (with_adapter 3)) quiet)
                                1000 4096 false) mid_song) = false.
Proof.
  destruct (TIMIDITY_Stop_keeps_repeat_count (with_adapter 3) quiet)
    as (_ & _ & _ & H).
  apply H. vm_compute. discriminate.
Defined.

(** C9 as stated fails: on a freshly built session, with a maximum of 128,
    a level of 200 is stored as 200 and a level of -1 as -1. *)
Lemma SetVolume_out_of_range :
  result (TIMIDITY_CreateFromIO unix64 stereo 128 33 true) quiet
  = Some (100, without_adapter 0)
  /\ volume (fst (result (volume_ops (without_adapter 0) [Op_SetVolume 200]) quiet)) = 200
  /\ ~ (0 <= volume (fst (result (volume_ops (without_adapter 0) [Op_SetVolume 200]) quiet))
        <= 128)
  /\ volume (fst (result (volume_ops (without_adapter 0) [Op_SetVolume (-1)]) quiet)) = -1
  /\ ~ (0 <= volume (fst (result (volume_ops (without_adapter 0) [Op_SetVolume (-1)]) quiet))
        <= 128).
Proof. vm_compute. repeat split; intros [H1 H2]; auto. Qed.

(** C9 at work: levels inside the range. *)
Lemma volume_in_range_for_levels_in_range_witness :
  volume (without_adapter 0) = 128
  /\ 0 <= volume (fst (result (volume_ops (without_adapter 0)
                                 [Op_SetVolume 64; Op_GetVolume; Op_SetVolume 0]) quiet))
     <= 128
  /\ Forall (fun v => 0 <= v <= 128)
            (snd (result (volume_ops (without_adapter 0)
                            [Op_SetVolume 64; Op_GetVolume; Op_SetVolume 0]) quiet)).
Proof.
  assert (Hmax : 0 <= 128) by lia.
  assert (Hops : levels_within 128 [Op_SetVolume 64; Op_GetVolume; Op_SetVolume 0])
    by (unfold levels_within; repeat constructor; cbn; lia).
  exact (volume_in_range_for_levels_in_range unix64 stereo 128 33 true quiet 100
           (without_adapter 0) _ quiet Hmax eq_refl Hops).
Defined.

(** The configuration search, run: on Unix with nothing set, the first
    default path fails and the second one initializes the backend; the
    built-in default is never tried. *)
Example TIMIDITY_Open_second_default :
  run (TIMIDITY_Open unix64 stereo) second_path_works
  = (0, mkState (with_init_rcs quiet [])
                [Ev_SDL_getenv "TIMIDITY_CFG" None;
                 Ev_Mix_GetTimidityCfg None;
                 Ev_Timidity_Init (Some "/etc/timidity.cfg"%string) (-1);
                 Ev_Timidity_Init (Some "/etc/timidity/freepats.cfg"%string) 0]).
Proof. vm_compute. reflexivity. Qed.

(** With the environment variable set, its path is the only one tried,
    although it fails and a default would have worked. *)
Example TIMIDITY_Open_env_only :
  result (TIMIDITY_Open unix64 stereo) env_set = -1
  /\ calls (TIMIDITY_Open unix64 stereo) env_set
     = [Ev_SDL_getenv "TIMIDITY_CFG" (Some "/opt/midi/timidity.cfg"%string);
        Ev_Timidity_Init (Some "/opt/midi/timidity.cfg"%string) (-1)].
Proof. vm_compute. split; reflexivity. Qed.

(** On Windows with nothing working, both candidates are tried. *)
Example TIMIDITY_Open_win32_all_fail :
  result (TIMIDITY_Open win64 stereo) quiet = -1
  /\ init_cfgs (calls (TIMIDITY_Open win64 stereo) quiet)
     = [Some "C:\TIMIDITY\TIMIDITY.CFG"%string; None].
Proof. vm_compute. split; reflexivity. Qed.

(** Construction, run: success closes the input; a song that does not
    load leaves it open and frees the session memory. *)
Example CreateFromIO_success_run :
  calls (TIMIDITY_CreateFromIO unix64 surround 128 33 true) quiet
  = [Ev_SDL_calloc 1 40 (Some 100);
     Ev_Timidity_LoadSong 33 (mkSpec 32784 2 44100) (Some 7);
     Ev_SDL_CreateAudioStream (mkSpec 32784 2 44100) (mkSpec 32784 6 44100) (Some 5);
     Ev_SDL_malloc 16384 (Some 9);
     Ev_SDL_CloseIO 33].
Proof. vm_compute. reflexivity. Qed.

Example CreateFromIO_bad_song_run :
  run (TIMIDITY_CreateFromIO unix64 surround 128 33 true) bad_song
  = (None, mkState bad_song
                   [Ev_SDL_calloc 1 40 (Some 100);
                    Ev_Timidity_LoadSong 33 (mkSpec 32784 2 44100) None;
                    Ev_SDL_free 100]).
Proof. vm_compute. reflexivity. Qed.

Example CreateFromIO_no_stream_run :
  calls (TIMIDITY_CreateFromIO unix64 surround 128 33 true) no_stream
  = [Ev_SDL_calloc 1 40 (Some 100);
     Ev_Timidity_LoadSong 33 (mkSpec 32784 2 44100) (Some 7);
     Ev_SDL_CreateAudioStream (mkSpec 32784 2 44100) (mkSpec 32784 6 44100) None;
     Ev_Timidity_FreeSong 7;
     Ev_SDL_free 100].
Proof. vm_compute. reflexivity. Qed.

Example CreateFromIO_no_memory_run :
  run (TIMIDITY_CreateFromIO unix64 surround 128 33 true) no_memory
  = (None, mkState no_memory [Ev_SDL_calloc 1 40 None]).
Proof. vm_compute. reflexivity. Qed.

(** The pull protocol, run: a session without adapter on its last round,
    with a decoder that has nothing left, ends the round; the next call
    reports done. *)
Example GetSome_last_round :
  result (TIMIDITY_GetSome (without_adapter 1) 1000 4096 false) quiet
  = (0, without_adapter 0, false)
  /\ result (TIMIDITY_GetSome (without_adapter 0) 1000 4096 false) quiet
     = (0, without_adapter 0, true).
Proof. vm_compute. split; reflexivity. Qed.

(** A decoder that fills the request: the bytes go to the adapter, the
    call itself returns 0 and the repeat count stays. *)
Example GetSome_full_production :
  run (TIMIDITY_GetSome (with_adapter 3) 1000 4096 false) mid_song
  = ((0, with_adapter 3, false),
     mkState quiet
             [Ev_SDL_GetAudioStreamData 5 1000 4096 0;
              Ev_Timidity_PlaySome (Some 7) (Some 9) 16384 16384;
              Ev_SDL_PutAudioStreamData 5 (Some 9) 16384 true]).
Proof. vm_compute. reflexivity. Qed.

(** * The further properties on concrete inputs *)

Import Scenes.

(** X1 at work: a full unit is decoded, the session is as before. *)
Lemma GetSome_frame_witness :
  snd (fst (result (TIMIDITY_GetSome (with_adapter 3) 1000 4096 false) mid_song))
  = with_adapter 3.
Proof.
  destruct (GetSome_frame (with_adapter 3) 1000 4096 false mid_song) as (_ & _ & H).
  apply H. vm_compute. reflexivity.
Defined.

(** X2 at work: the song ends with three rounds to go. *)
Lemma GetSome_count_step_witness :
  0 <= play_count (snd (fst (result (TIMIDITY_GetSome (with_adapter 3) 1000 4096 false)
                                    quiet)))
    <= play_count (with_adapter 3)
  /\ play_count (with_adapter 3)
     - play_count (snd (fst (result (TIMIDITY_GetSome (with_adapter 3) 1000 4096 false)
                                    quiet)))
     <= short_count (calls (TIMIDITY_GetSome (with_adapter 3) 1000 4096 false) quiet).
Proof.
  destruct (GetSome_count_step (with_adapter 3) 1000 4096 false quiet) as (_ & H & _).
  apply H. vm_compute. discriminate.
Defined.

(** X4 at work: the adapter is empty, a unit is decoded and pushed. *)
Lemma GetSome_adapter_defers_delivery_witness :
  exists (amount : Z) (ok : bool) (post : list Event),
    calls (TIMIDITY_GetSome (with_adapter 3) 1000 4096 false) mid_song
    = [Ev_SDL_GetAudioStreamData 5 1000 4096 0;
       Ev_Timidity_PlaySome (song (with_adapter 3)) (buffer (with_adapter 3))
                            (buffer_size (with_adapter 3)) amount;
       Ev_SDL_PutAudioStreamData 5 (buffer (with_adapter 3)) amount ok] ++ post
    /\ fst (fst (result (TIMIDITY_GetSome (with_adapter 3) 1000 4096 false) mid_song))
       = (if ok then 0 else -1)
    /\ snd (result (TIMIDITY_GetSome (with_adapter 3) 1000 4096 false) mid_song) = false
    /\ (ok = false ->
        post = []
        /\ snd (fst (result (TIMIDITY_GetSome (with_adapter 3) 1000 4096 false) mid_song))
           = with_adapter 3).
Proof.
  exact (GetSome_adapter_defers_delivery (with_adapter 3) 1000 4096 false mid_song 5
           eq_refl eq_refl).
Defined.

(** X5 at work: no adapter, the decoder fills the caller's buffer. *)
Lemma GetSome_direct_delivery_witness :
  fst (fst (result (TIMIDITY_GetSome (without_adapter 2) 1000 4096 false) direct_song))
  = 4096
  /\ uses_stream (calls (TIMIDITY_GetSome (without_adapter 2) 1000 4096 false) direct_song)
     = false.
Proof.
  destruct (GetSome_direct_delivery (without_adapter 2) 1000 4096 false direct_song eq_refl)
    as (Hnostream & H).
  split; [| exact Hnostream].
  assert (Hpc : play_count (without_adapter 2) <> 0) by (vm_compute; discriminate).
  destruct (H Hpc) as (Hret & _). exact Hret.
Defined.

(** X6 at work: three pulls on a stopped session without adapter. *)
Lemma pulls_stopped_stays_stopped_witness :
  snd (fst (result (pulls three_pulls (without_adapter 0) false) direct_song))
  = without_adapter 0
  /\ decoder_invoked (calls (pulls three_pulls (without_adapter 0) false) direct_song)
     = false
  /\ restarted (calls (pulls three_pulls (without_adapter 0) false) direct_song) = false
  /\ (stream (without_adapter 0) = None ->
      calls (pulls three_pulls (without_adapter 0) false) direct_song = []
      /\ Forall (fun n => n = 0)
                (fst (fst (result (pulls three_pulls (without_adapter 0) false) direct_song)))
      /\ (three_pulls <> [] ->
          snd (result (pulls three_pulls (without_adapter 0) false) direct_song) = true)).
Proof.
  exact (pulls_stopped_stays_stopped three_pulls (without_adapter 0) false direct_song
           eq_refl).
Defined.

(** X7 at work: three pulls on a looping session whose song keeps ending. *)
Lemma pulls_infinite_never_done_witness :
  play_count (snd (fst (result (pulls three_pulls (without_adapter (-1)) false) quiet))) < 0
  /\ snd (result (pulls three_pulls (without_adapter (-1)) false) quiet) = false.
Proof.
  exact (pulls_infinite_never_done three_pulls (without_adapter (-1)) false quiet eq_refl).
Defined.

(** X8 at work: two rounds to go, the song ends twice, the third pull
    reports done. *)
Lemma pulls_finite_count_witness :
  play_count (snd (fst (result (pulls three_pulls (without_adapter 2) false) quiet))) = 0
  /\ play_count (without_adapter 2)
     <= short_count (calls (pulls three_pulls (without_adapter 2) false) quiet).
Proof.
  assert (Hpc : 0 <= play_count (without_adapter 2)) by (vm_compute; discriminate).
  destruct (pulls_finite_count three_pulls (without_adapter 2) false quiet Hpc)
    as (_ & _ & H).
  apply H; [reflexivity | vm_compute; reflexivity].
Defined.

(** X9 at work: a session with adapter and scratch buffer, kept busy. *)
Lemma session_resources_fixed_witness :
  buffer (result (drive (with_adapter 0) busy) mid_song) <> None
  <-> stream (result (drive (with_adapter 0) busy) mid_song) <> None.
Proof.
  destruct (session_resources_fixed busy (with_adapter 0) mid_song) as (_ & _ & _ & H).
  apply H. split; discriminate.
Defined.

(** X10 at work: built for six channels, kept busy, deleted. *)
Lemma session_life_leaks_nothing_witness :
  outstanding
    (calls (TIMIDITY_CreateFromIO unix64 surround 128 33 true) quiet
       ++ calls (drive (with_adapter 0) busy) mid_song
       ++ calls (TIMIDITY_Delete 100 (result (drive (with_adapter 0) busy) mid_song)) quiet)
  = [].
Proof.
  exact (session_life_leaks_nothing unix64 surround 128 33 true quiet 100
           (with_adapter 0) busy mid_song quiet eq_refl).
Defined.

(** X13 at work: a stereo session, pulled before it is played. *)
Lemma fresh_session_is_stopped_witness :
  play_count (without_adapter 0) = 0
  /\ volume (without_adapter 0) = 128
  /\ (forall (reqs : list (Ptr * Z)) (done : bool) (w' : World),
         decoder_invoked (calls (pulls reqs (without_adapter 0) done) w') = false
         /\ snd (fst (result (pulls reqs (without_adapter 0) done) w')) = without_adapter 0)
  /\ (channels stereo <= 2 ->
      forall (data : Ptr) (bytes : Z) (done : bool) (w' : World),
        result (TIMIDITY_GetSome (without_adapter 0) data bytes done) w'
        = (0, without_adapter 0, true)).
Proof.
  exact (fresh_session_is_stopped unix64 stereo 128 33 true quiet 100
           (without_adapter 0) eq_refl).
Defined.

(** X14 at work: 16-bit stereo scratch buffer, 16384 bytes. *)
Lemma CreateFromIO_scratch_allocation_witness :
  0 <= buffer_size (with_adapter 0) <= 253952
  /\ filter (fun e => match e with Ev_SDL_malloc _ _ => true | _ => false end)
            (calls (TIMIDITY_CreateFromIO unix64 surround 128 33 true) quiet)
     = [Ev_SDL_malloc (buffer_size (with_adapter 0)) (buffer (with_adapter 0))].
Proof.
  assert (Hbits : 18 <= size_t_bits unix64) by (vm_compute; discriminate).
  assert (Hst : stream (with_adapter 0) <> None) by discriminate.
  exact (CreateFromIO_scratch_allocation unix64 surround 128 33 true quiet 100
           (with_adapter 0) Hbits eq_refl Hst).
Defined.

(** X17 at work: the variable is set, its path fails, nothing else is
    tried. *)
Lemma TIMIDITY_Open_env_first_witness :
  calls (TIMIDITY_Open unix64 stereo) env_set
  = [Ev_SDL_getenv "TIMIDITY_CFG" (Some "/opt/midi/timidity.cfg"%string);
     Ev_Timidity_Init (Some "/opt/midi/timidity.cfg"%string)
       (fst (x_Timidity_Init (Some "/opt/midi/timidity.cfg"%string) env_set))]
  /\ result (TIMIDITY_Open unix64 stereo) env_set
     = fst (x_Timidity_Init (Some "/opt/midi/timidity.cfg"%string) env_set).
Proof.
  destruct (TIMIDITY_Open_env_first unix64 stereo env_set) as (H & _).
  apply H. reflexivity.
Defined.

(** X18 at work: the push fails; the drain fails. *)
Lemma GetSome_error_sources_witness :
  (existsb (reports_negative (with_adapter 1)
              (fst (fst (result (TIMIDITY_GetSome (with_adapter 1) 1000 4096 false)
                                push_fails))))
           (calls (TIMIDITY_GetSome (with_adapter 1) 1000 4096 false) push_fails) = true
   \/ (push_failed (calls (TIMIDITY_GetSome (with_adapter 1) 1000 4096 false) push_fails)
       = true
       /\ fst (fst (result (TIMIDITY_GetSome (with_adapter 1) 1000 4096 false) push_fails))
          = -1))
  /\ (existsb (reports_negative (with_adapter 1)
                 (fst (fst (result (TIMIDITY_GetSome (with_adapter 1) 1000 4096 false)
                                   drain_error))))
              (calls (TIMIDITY_GetSome (with_adapter 1) 1000 4096 false) drain_error) = true
      \/ (push_failed (calls (TIMIDITY_GetSome (with_adapter 1) 1000 4096 false) drain_error)
          = true
          /\ fst (fst (result (TIMIDITY_GetSome (with_adapter 1) 1000 4096 false)
                              drain_error)) = -1)).
Proof.
  split.
  - apply (GetSome_error_sources (with_adapter 1) 1000 4096 false push_fails).
    vm_compute. reflexivity.
  - apply (GetSome_error_sources (with_adapter 1) 1000 4096 false drain_error).
    vm_compute. reflexivity.
Defined.

(** X19 at work: played twice over, then pulled. *)
Lemma Play_then_pull_witness :
  snd (result (TIMIDITY_GetSome (snd (result (TIMIDITY_Play (without_adapter 0) 2) quiet))
                                1000 4096 false) direct_song) = false.
Proof.
  destruct (Play_then_pull (without_adapter 0) 2 quiet 1000 4096 false direct_song)
    as (H & _).
  apply H. discriminate.
Defined.

(** X20 at work: a playing session with an empty adapter. *)
Lemma GetSome_bounded_work_witness :
  List.length (filter is_PlaySome
                 (calls (TIMIDITY_GetSome (with_adapter 3) 1000 4096 false) mid_song))
  = 1%nat.
Proof.
  destruct (GetSome_bounded_work (with_adapter 3) 1000 4096 false mid_song)
    as (_ & _ & _ & H).
  apply H.
  - vm_compute. discriminate.
  - intros st Hst. reflexivity.
Defined.

(** The many-pull protocol, run: two rounds, a decoder that has nothing. *)
Example pulls_two_rounds_run :
  result (pulls three_pulls (without_adapter 2) false) quiet
  = ([0; 0; 0], without_adapter 0, true)
  /\ calls (pulls three_pulls (without_adapter 2) false) quiet
     = [Ev_Timidity_PlaySome (Some 7) (Some 1000) 4096 0;
        Ev_Timidity_Start (Some 7); Ev_Timidity_Seek (Some 7) 0;
        Ev_Timidity_PlaySome (Some 7) (Some 1000) 4096 0].
Proof. vm_compute. split; reflexivity. Qed.
